(** * run_pipeline.py: the phase runner of the exoplanet detection pipeline

    A shallow embedding of [src/run_pipeline.py] and the properties of its
    three functions, [setup_environment], [run_phase] and [main].

    - Python [str] values are [string]s; one [ascii] stands for one code
      point (U+0000 to U+00FF), and indices are Python's [int], modelled
      in [Z] because [str.find] answers [-1] and a slice accepts negative
      bounds.
    - The interpreter behind [exec(code_section, globals())], the clock
      behind [datetime.now()] and the module namespace are parameters of
      the development ([Section Runner]). A phase body may change the
      file system, the working directory, the console and the namespace
      at will. Two kinds of body are outside the model: one that does
      not terminate, and one that rebinds a name that the runner itself
      looks up in the module namespace ([print], [open], [Path],
      [datetime], [traceback], [json], [list], [Exception]).
    - The file system is a finite map from resolved paths to nodes,
      together with a working directory; permissions, links and device
      errors are not modelled. *)

From Stdlib Require Import ZArith Ascii String List Lia Bool.
From stdpp Require Import base option list gmap strings fin_maps.

Local Open Scope string_scope.
Local Open Scope list_scope.
Local Open Scope Z_scope.

(** ** Python strings *)

Module PyStr.

Definition nl : string := String (ascii_of_nat 10) EmptyString.
Definition dquote : string := String (ascii_of_nat 34) EmptyString.

(** [len(s)] *)
Definition len (s : string) : Z := Z.of_nat (String.length s).

(** [c * n] for a one-character string [c] (as in ['='*80]). *)
Fixpoint repeat_str (s : string) (n : nat) : string :=
  match n with
  | O => EmptyString
  | S n' => s +:+ repeat_str s n'
  end.

(** [s.find(sub)]: the lowest index at which [sub] starts in [s], or [-1]. *)
Definition find (s sub : string) : Z :=
  match String.index 0 sub s with
  | Some n => Z.of_nat n
  | None => -1
  end.

(** How a slice bound is normalised: a negative bound counts from the end,
    and every bound is clipped to [0 .. len]. *)
Definition clamp_index (n i : Z) : Z :=
  if i <? 0 then Z.max (i + n) 0 else Z.min i n.

(** [s[lo:hi]] *)
Definition slice (s : string) (lo hi : Z) : string :=
  let lo' := clamp_index (len s) lo in
  let hi' := clamp_index (len s) hi in
  String.substring (Z.to_nat lo') (Z.to_nat (hi' - lo')) s.

(** [sub] starts at index [n] of [s] (and fits in it). *)
Definition occurs_at (sub s : string) (n : nat) : Prop :=
  (n + String.length sub <= String.length s)%nat
  /\ String.substring n (String.length sub) s = sub.

#[global] Instance occurs_at_dec sub s n : Decision (occurs_at sub s n).
Proof. unfold occurs_at. apply _. Defined.

(** [s.lower()] on one code point of Latin-1: the letters A-Z, and
    U+00C0 to U+00DE but for the multiplication sign U+00D7. *)
Definition lower_char (c : ascii) : ascii :=
  let n := nat_of_ascii c in
  if ((65 <=? n) && (n <=? 90))%nat then ascii_of_nat (n + 32)
  else if ((192 <=? n) && (n <=? 222) && negb (n =? 215))%nat
       then ascii_of_nat (n + 32)
  else c.

Fixpoint lower (s : string) : string :=
  match s with
  | EmptyString => EmptyString
  | String c s' => String (lower_char c) (lower s')
  end.

(** [s.replace(" ", "_")]: both arguments are one character long. *)
Fixpoint replace_char (old new : ascii) (s : string) : string :=
  match s with
  | EmptyString => EmptyString
  | String c s' =>
      String (if Ascii.eqb c old then new else c) (replace_char old new s')
  end.

(** [s.endswith(suffix)] *)
Definition endswith (s suffix : string) : bool :=
  let n := String.length s in
  let m := String.length suffix in
  (m <=? n)%nat && String.eqb (String.substring (n - m) m s) suffix.

(** [sub in s] *)
Definition contains (s sub : string) : Prop :=
  exists pre post, s = pre +:+ sub +:+ post.

End PyStr.

(** ** The Source Extractor, lines 71-72 of [main]

    [full_code[full_code.find(start) : full_code.find(end)]], with the two
    marker literals abstracted. *)

Definition extract (full_code start_marker end_marker : string) : string :=
  PyStr.slice full_code
    (PyStr.find full_code start_marker)
    (PyStr.find full_code end_marker).

Definition START_MARKER : string := "class NASAExoplanetScraper:".

Definition END_MARKER : string :=
  "# ========================================================================"
  +:+ PyStr.nl +:+ "# EXOPLANET HUNTER AI - EXPLORATORY".

Definition scraper_section (full_code : string) : string :=
  extract full_code START_MARKER END_MARKER.

(** ** Results of fallible operations *)

Inductive res (E A : Type) : Type :=
  | Return (a : A)
  | Raise (e : E).
Arguments Return {E A} a.
Arguments Raise {E A} e.

(** ** pathlib paths and the file system *)

Module FS.

(** A [pathlib.Path]: whether it is anchored at the root, and its parts.
    The parser drops empty parts and ["."]; [".."] is kept and resolved by
    the file system. *)
Record Path : Type := MkPath { absolute : bool; parts : list string }.

#[global] Instance Path_eq_dec : EqDecision Path.
Proof. solve_decision. Defined.

Fixpoint split_slash (acc : string) (s : string) : list string :=
  match s with
  | EmptyString => [acc]
  | String c s' =>
      if Ascii.eqb c "/"%char then acc :: split_slash EmptyString s'
      else split_slash (acc +:+ String c EmptyString) s'
  end.

Definition keep_part (c : string) : bool :=
  negb (String.eqb c "") && negb (String.eqb c ".").

(** [Path(s)] *)
Definition path_of (s : string) : Path :=
  {| absolute := String.prefix "/" s;
     parts := filter (fun c => keep_part c = true) (split_slash EmptyString s) |}.

(** [p / s]: an absolute right operand replaces the left one. *)
Definition joinpath (p : Path) (s : string) : Path :=
  let q := path_of s in
  if absolute q then q
  else {| absolute := absolute p; parts := parts p ++ parts q |}.

Inductive node : Type :=
  | File (content : string)
  | Dir.

#[global] Instance node_eq_dec : EqDecision node.
Proof. solve_decision. Defined.

Inductive errno : Type := ENOENT | ENOTDIR | EISDIR | EEXIST.

#[global] Instance errno_eq_dec : EqDecision errno.
Proof. solve_decision. Defined.

(** A resolved location: the names from the root down, innermost first;
    [[]] is the root. *)
Abbreviation loc := (list string).

(** The tree of existing nodes and the working directory of the process. *)
Record state : Type := MkState { tree : gmap loc node; cwd : loc }.

Definition node_at (t : gmap loc node) (l : loc) : option node :=
  match l with
  | [] => Some Dir
  | _ => t !! l
  end.

Definition step (cur : loc) (c : string) : loc :=
  if String.eqb c ".." then tail cur else c :: cur.

(** Resolution of the parts of a path from [cur]: each part is looked up
    in a directory that must exist; the location reached need not. *)
Fixpoint walk (t : gmap loc node) (cur : loc) (ps : list string) : res errno loc :=
  match ps with
  | [] => Return cur
  | c :: rest =>
      match node_at t cur with
      | Some Dir => walk t (step cur c) rest
      | Some (File _) => Raise ENOTDIR
      | None => Raise ENOENT
      end
  end.

Definition resolve (s : state) (p : Path) : res errno loc :=
  walk (tree s) (if absolute p then [] else cwd s) (parts p).

(** [os.stat(p)], as far as the kind and content of the node *)
Definition stat (s : state) (p : Path) : res errno node :=
  match resolve s p with
  | Return l =>
      match node_at (tree s) l with
      | Some n => Return n
      | None => Raise ENOENT
      end
  | Raise e => Raise e
  end.

(** [p.exists()] *)
Definition exists_ (s : state) (p : Path) : bool :=
  match stat s p with Return _ => true | Raise _ => false end.

(** [p.is_dir()] *)
Definition is_dir (s : state) (p : Path) : bool :=
  match stat s p with Return Dir => true | _ => false end.

(** [p.is_file()] *)
Definition is_file (s : state) (p : Path) : bool :=
  match stat s p with Return (File _) => true | _ => false end.

(** Whether the last part of [p] is a name under which a node can be
    created: a path without parts, or one that ends in [".."], only ever
    denotes a directory that exists already. *)
Definition names_entry (p : Path) : bool :=
  match last (parts p) with
  | Some c => negb (String.eqb c "..")
  | None => false
  end.

(** [os.mkdir(p)] *)
Definition os_mkdir (p : Path) (s : state) : res errno state :=
  match resolve s p with
  | Return l =>
      match node_at (tree s) l with
      | Some _ => Raise EEXIST
      | None =>
          if names_entry p
          then Return {| tree := <[l := Dir]> (tree s); cwd := cwd s |}
          else Raise ENOENT
      end
  | Raise e => Raise e
  end.

(** [p.mkdir(parents=False, exist_ok=exist_ok)] *)
Definition mkdir_here (exist_ok : bool) (p : Path) (s : state) : res errno state :=
  match os_mkdir p s with
  | Return s' => Return s'
  | Raise ENOENT => Raise ENOENT
  | Raise e => if exist_ok && is_dir s p then Return s else Raise e
  end.

(** [p.mkdir(parents=True, exist_ok=exist_ok)], by recursion on the parts
    of [p] from the last one: [os.mkdir] is tried first, and only a
    [FileNotFoundError] makes the parent, after which [p] is made with
    [parents=False]. The state that an error leaves behind is returned
    with the error. *)
Fixpoint mkdir_parents (abs : bool) (rparts : list string) (exist_ok : bool)
    (s : state) : res errno unit * state :=
  let p := {| absolute := abs; parts := rev rparts |} in
  match os_mkdir p s with
  | Return s' => (Return tt, s')
  | Raise ENOENT =>
      match rparts with
      | [] => (Raise ENOENT, s)
      | _ :: rparent =>
          match mkdir_parents abs rparent true s with
          | (Return _, s1) =>
              match mkdir_here exist_ok p s1 with
              | Return s2 => (Return tt, s2)
              | Raise e => (Raise e, s1)
              end
          | (Raise e, s1) => (Raise e, s1)
          end
      end
  | Raise e => if exist_ok && is_dir s p then (Return tt, s) else (Raise e, s)
  end.

(** [p.mkdir(parents=True, exist_ok=True)] *)
Definition mkdir_p (p : Path) (s : state) : res errno unit * state :=
  mkdir_parents (absolute p) (rev (parts p)) true s.

(** [open(p, 'r')] followed by [read()] *)
Definition read_text (s : state) (p : Path) : res errno string :=
  match stat s p with
  | Return (File c) => Return c
  | Return Dir => Raise EISDIR
  | Raise e => Raise e
  end.

(** [open(p, 'w')]: the file is created or truncated; the location of the
    open file is the handle. *)
Definition open_w (p : Path) (s : state) : res errno loc * state :=
  match resolve s p with
  | Return l =>
      match node_at (tree s) l with
      | Some Dir => (Raise EISDIR, s)
      | Some (File _) =>
          (Return l, {| tree := <[l := File ""]> (tree s); cwd := cwd s |})
      | None =>
          if names_entry p
          then (Return l, {| tree := <[l := File ""]> (tree s); cwd := cwd s |})
          else (Raise ENOENT, s)
      end
  | Raise e => (Raise e, s)
  end.

(** The content of an open file once it has been written and closed. *)
Definition write_handle (l : loc) (content : string) (s : state) : state :=
  {| tree := <[l := File content]> (tree s); cwd := cwd s |}.

(** [list(p.glob('*.csv'))]: nothing unless [p] is a directory; else the
    names in it that end in [.csv]. *)
Definition glob_csv (s : state) (p : Path) : list string :=
  match resolve s p with
  | Return l =>
      match node_at (tree s) l with
      | Some Dir =>
          omap (fun kv : loc * node =>
                  match fst kv with
                  | name :: l' =>
                      if bool_decide (l' = l) && PyStr.endswith name ".csv"
                      then Some name else None
                  | [] => None
                  end)
               (map_to_list (tree s))
      | _ => []
      end
  | Raise _ => []
  end.

(** [s'] is [s] with directories added, each under one of [names], and
    nothing else changed. *)
Definition extends (names : list string) (s s' : state) : Prop :=
  cwd s' = cwd s
  /\ forall l,
       tree s' !! l = tree s !! l
       \/ (tree s !! l = None /\ tree s' !! l = Some Dir
           /\ exists c l0, l = c :: l0 /\ c ∈ names).

End FS.

(** ** [datetime.now().isoformat()] *)

Module DateTime.

(** A naive [datetime], as [datetime.now()] builds it. *)
Record datetime : Type := MkDateTime {
  year : nat; month : nat; day : nat;
  hour : nat; minute : nat; second : nat; microsecond : nat
}.

Definition digit_char (d : nat) : ascii := ascii_of_nat (48 + d mod 10).

(** ["%0<width>d" % n], for the fields of a [datetime], which fit their
    width. *)
Fixpoint zfill (width n : nat) : string :=
  match width with
  | O => EmptyString
  | S w => zfill w (n / 10) +:+ String (digit_char n) EmptyString
  end.

(** [YYYY-MM-DDTHH:MM:SS] *)
Definition to_seconds (dt : datetime) : string :=
  zfill 4 (year dt) +:+ "-" +:+ zfill 2 (month dt) +:+ "-" +:+ zfill 2 (day dt)
  +:+ "T" +:+ zfill 2 (hour dt) +:+ ":" +:+ zfill 2 (minute dt)
  +:+ ":" +:+ zfill 2 (second dt).

(** [dt.isoformat()]: [.ffffff] follows the seconds unless the
    microsecond is 0. *)
Definition isoformat (dt : datetime) : string :=
  to_seconds dt
  +:+ (if (microsecond dt =? 0)%nat then EmptyString
       else "." +:+ zfill 6 (microsecond dt)).

(** The shape of an ISO-8601 date and time: a template of digits and
    literal separators. *)
Inductive cls : Type := Digit | Lit (c : ascii).

Definition is_digit (c : ascii) : bool :=
  let n := nat_of_ascii c in ((48 <=? n) && (n <=? 57))%nat.

Fixpoint matches (tpl : list cls) (s : string) : bool :=
  match tpl, s with
  | [], EmptyString => true
  | Digit :: tpl', String c s' => is_digit c && matches tpl' s'
  | Lit a :: tpl', String c s' => Ascii.eqb a c && matches tpl' s'
  | _, _ => false
  end.

Definition digits (n : nat) : list cls := repeat Digit n.

Definition tpl_seconds : list cls :=
  digits 4 ++ [Lit "-"%char] ++ digits 2 ++ [Lit "-"%char] ++ digits 2
  ++ [Lit "T"%char] ++ digits 2 ++ [Lit ":"%char] ++ digits 2
  ++ [Lit ":"%char] ++ digits 2.

Definition tpl_fraction : list cls := [Lit "."%char] ++ digits 6.

Definition iso8601_shape (s : string) : bool :=
  matches tpl_seconds s || matches (tpl_seconds ++ tpl_fraction) s.

End DateTime.

(** ** [json.dump(results, f, indent=2)] *)

Module Json.

Definition hex_digit (n : nat) : ascii :=
  if (n <? 10)%nat then ascii_of_nat (48 + n) else ascii_of_nat (87 + n).

(** One code point inside a JSON string ([ensure_ascii=True]). *)
Definition escape_char (c : ascii) : string :=
  let n := nat_of_ascii c in
  if (n =? 34)%nat then "\" +:+ PyStr.dquote
  else if (n =? 92)%nat then "\\"
  else if (n =? 10)%nat then "\n"
  else if (n =? 13)%nat then "\r"
  else if (n =? 9)%nat then "\t"
  else if (n =? 8)%nat then "\b"
  else if (n =? 12)%nat then "\f"
  else if ((n <? 32) || (126 <? n))%nat
       then "\u00" +:+ String (hex_digit (n / 16)) (String (hex_digit (n mod 16)) EmptyString)
  else String c EmptyString.

Fixpoint escape (s : string) : string :=
  match s with
  | EmptyString => EmptyString
  | String c s' => escape_char c +:+ escape s'
  end.

Definition str (s : string) : string :=
  PyStr.dquote +:+ escape s +:+ PyStr.dquote.

Fixpoint members (indent : string) (kvs : list (string * string)) : string :=
  match kvs with
  | [] => EmptyString
  | [(k, v)] => indent +:+ str k +:+ ": " +:+ str v +:+ PyStr.nl
  | (k, v) :: rest =>
      indent +:+ str k +:+ ": " +:+ str v +:+ "," +:+ PyStr.nl
      +:+ members indent rest
  end.

(** A [dict] of strings nested at depth 1 of the document. *)
Definition inner_dict (kvs : list (string * string)) : string :=
  match kvs with
  | [] => "{}"
  | _ => "{" +:+ PyStr.nl +:+ members "    " kvs +:+ "  }"
  end.

End Json.

(** ** Python dictionaries with string keys and values

    A [dict] keeps its keys in insertion order; [d[k] = v] replaces the
    value of a key that is present and appends the key otherwise. *)

Module PyDict.

Abbreviation dict := (list (string * string)).

Fixpoint set (k v : string) (d : dict) : dict :=
  match d with
  | [] => [(k, v)]
  | (k', v') :: rest =>
      if String.eqb k' k then (k', v) :: rest else (k', v') :: set k v rest
  end.

Fixpoint get (k : string) (d : dict) : option string :=
  match d with
  | [] => None
  | (k', v') :: rest => if String.eqb k' k then Some v' else get k rest
  end.

Definition keys (d : dict) : list string := map fst d.

End PyDict.

(** ** Exceptions *)

(** An exception raised by an executed phase body: whether its class
    derives from [Exception] ([SystemExit] and [KeyboardInterrupt] do
    not), and the two parts of its formatted traceback. *)
Record PyExc : Type := MkPyExc {
  is_Exception : bool;
  tb_frames : string;
  exc_line : string
}.

(** [traceback.format_exc()] inside the handler of [e]. *)
Definition format_exc (e : PyExc) : string :=
  "Traceback (most recent call last):" +:+ PyStr.nl
  +:+ tb_frames e +:+ exc_line e +:+ PyStr.nl.

(** What can leave [run_phase] or [main]: an [OSError] of the runner's own
    file operations, or an exception of a phase body that the handler
    does not catch. *)
Inductive exn : Type :=
  | OSError (e : FS.errno)
  | Uncaught (e : PyExc).

(** How the execution of a phase body ends. *)
Inductive outcome : Type :=
  | Completed
  | Raises (e : PyExc).

(** The Run Record: the dictionary [results] of [main]. *)
Record RunRecord : Type := MkRunRecord {
  timestamp : string;
  phases : PyDict.dict
}.

Definition json_dump (r : RunRecord) : string :=
  "{" +:+ PyStr.nl
  +:+ "  " +:+ Json.str "timestamp" +:+ ": " +:+ Json.str (timestamp r) +:+ "," +:+ PyStr.nl
  +:+ "  " +:+ Json.str "phases" +:+ ": " +:+ Json.inner_dict (phases r) +:+ PyStr.nl
  +:+ "}".

(** ** The runner *)

Section Runner.

Context {Globals : Type}.

(** Everything a phase body can read and change: the file system, the
    console, the time that has passed and the module namespace that
    [globals()] returns. *)
Record Env : Type := MkEnv {
  files : FS.state;
  stdout : list string;
  ticks : nat;
  globals : Globals
}.

(** [exec(code, globals())], for bodies that terminate and leave the
    names of the runner alone. *)
Variable exec : string -> Env -> outcome * Env.

(** The reading of the clock after [n] earlier events. *)
Variable clock : nat -> DateTime.datetime.

(** The state of a run: the environment, the calls of [run_phase] so far
    (phase name and body; a record kept by the model, which the program
    cannot read) and the local variable [results] of [main], unbound
    until line 61. *)
Record RunState : Type := MkRunState {
  env : Env;
  history : list (string * string);
  results : option RunRecord
}.

Definition initial (e : Env) : RunState :=
  {| env := e; history := []; results := None |}.

Definition M (A : Type) : Type := RunState -> res exn A * RunState.

Definition ret {A} (a : A) : M A := fun st => (Return a, st).

Definition bind {A B} (m : M A) (k : A -> M B) : M B :=
  fun st =>
    match m st with
    | (Return a, st') => k a st'
    | (Raise e, st') => (Raise e, st')
    end.

Notation "'let*' x ':=' m 'in' k" := (bind m (fun x => k))
  (at level 10, x name, m at level 100, k at level 200).
Notation "m ;; k" := (bind m (fun _ => k))
  (at level 100, k at level 200, right associativity).

Definition set_env (e : Env) (st : RunState) : RunState :=
  {| env := e; history := history st; results := results st |}.

Definition set_files (s : FS.state) (e : Env) : Env :=
  {| files := s; stdout := stdout e; ticks := ticks e; globals := globals e |}.

Definition add_stdout (lines : list string) (e : Env) : Env :=
  {| files := files e; stdout := stdout e ++ lines;
     ticks := ticks e; globals := globals e |}.

(** [print(s)] *)
Definition print (s : string) : M unit :=
  fun st => (Return tt, set_env (add_stdout [s] (env st)) st).

(** [datetime.now()] *)
Definition now : M DateTime.datetime :=
  fun st =>
    let e := env st in
    (Return (clock (ticks e)),
     set_env {| files := files e; stdout := stdout e;
                ticks := S (ticks e); globals := globals e |} st).

Definition mkdir_p (p : FS.Path) : M unit :=
  fun st =>
    match FS.mkdir_p p (files (env st)) with
    | (Return _, s') => (Return tt, set_env (set_files s' (env st)) st)
    | (Raise e, s') => (Raise (OSError e), set_env (set_files s' (env st)) st)
    end.

Definition read_text (p : FS.Path) : M string :=
  fun st =>
    match FS.read_text (files (env st)) p with
    | Return c => (Return c, st)
    | Raise e => (Raise (OSError e), st)
    end.

Definition open_w (p : FS.Path) : M FS.loc :=
  fun st =>
    match FS.open_w p (files (env st)) with
    | (Return l, s') => (Return l, set_env (set_files s' (env st)) st)
    | (Raise e, s') => (Raise (OSError e), set_env (set_files s' (env st)) st)
    end.

Definition write_handle (l : FS.loc) (content : string) : M unit :=
  fun st =>
    (Return tt,
     set_env (set_files (FS.write_handle l content (files (env st))) (env st)) st).

Definition path_exists (p : FS.Path) : M bool :=
  fun st => (Return (FS.exists_ (files (env st)) p), st).

Definition glob_csv (p : FS.Path) : M (list string) :=
  fun st => (Return (FS.glob_csv (files (env st)) p), st).

(** The call of [run_phase] is noted, then the body runs in the
    environment. *)
Definition exec_body (phase_name code : string) : M outcome :=
  fun st =>
    let (o, e') := exec code (env st) in
    (Return o,
     {| env := e'; history := history st ++ [(phase_name, code)];
        results := results st |}).

Definition raise {A} (e : exn) : M A := fun st => (Raise e, st).

Fixpoint for_each {A} (xs : list A) (body : A -> M unit) : M unit :=
  match xs with
  | [] => ret tt
  | x :: rest => body x ;; for_each rest body
  end.

(** *** [setup_environment], lines 13-26 *)

Definition directories : list string :=
  [ "data/raw"; "data/processed"; "data/augmented"; "data/synthetic"; "data/tess";
    "models"; "models/tess";
    "reports/figures"; "reports/figures/augmentation"; "reports/figures/tess";
    "reports/validation"; "reports/tess_analysis";
    "logs" ].

Definition setup_environment : M unit :=
  for_each directories (fun dir_path => mkdir_p (FS.path_of dir_path)) ;;
  print "✓ Directory structure created".

(** *** [run_phase], lines 28-49 *)

Definition rule : string := PyStr.repeat_str "=" 80.

(** [phase_name.lower().replace(" ", "_")] *)
Definition normalize (phase_name : string) : string :=
  PyStr.replace_char " "%char "_"%char (PyStr.lower phase_name).

(** [Path('logs') / f'{...}_error.log'] *)
Definition log_file (phase_name : string) : FS.Path :=
  FS.joinpath (FS.path_of "logs") (normalize phase_name +:+ "_error.log").

Definition log_content (phase_name : string) (ts : DateTime.datetime)
    (e : PyExc) : string :=
  ("Error in " +:+ phase_name +:+ PyStr.nl)
  +:+ ("Timestamp: " +:+ DateTime.isoformat ts +:+ PyStr.nl +:+ PyStr.nl)
  +:+ format_exc e.

(** Lines 30-32 *)
Definition banner (phase_name : string) : list string :=
  [ PyStr.nl +:+ rule; "RUNNING: " +:+ phase_name; rule +:+ PyStr.nl ].

(** The environment in which the body of a phase starts. *)
Definition entered (phase_name : string) (e : Env) : Env :=
  add_stdout (banner phase_name) e.

Definition run_phase (phase_name code_section : string) : M bool :=
  print (PyStr.nl +:+ rule) ;;
  print ("RUNNING: " +:+ phase_name) ;;
  print (rule +:+ PyStr.nl) ;;
  let* o := exec_body phase_name code_section in
  match o with
  | Completed =>
      print (PyStr.nl +:+ "✓ " +:+ phase_name +:+ " completed successfully") ;;
      ret true
  | Raises e =>
      if is_Exception e then
        print (PyStr.nl +:+ "✗ " +:+ phase_name +:+ " failed with error:") ;;
        print (format_exc e) ;;
        let* f := open_w (log_file phase_name) in
        let* ts := now in
        write_handle f (log_content phase_name ts e) ;;
        ret false
      else raise (Uncaught e)
  end.

(** *** [main], lines 51-107

    The body of [main] is cut at its comments into four blocks, which
    [main] runs in sequence. *)

Definition set_results (r : RunRecord) : M unit :=
  fun st => (Return tt, {| env := env st; history := history st; results := Some r |}).

(** [results['phases'][k] = v] *)
Definition set_phase (k v : string) : M unit :=
  fun st =>
    (Return tt,
     {| env := env st; history := history st;
        results :=
          (fun r => {| timestamp := timestamp r; phases := PyDict.set k v (phases r) |})
            <$> results st |}).

(** [results['phases']], empty while [results] is unbound. *)
Definition phases_of (st : RunState) : PyDict.dict :=
  from_option phases [] (results st).

Definition get_phases : M PyDict.dict :=
  fun st => (Return (phases_of st), st).

Definition dump_results (f : FS.loc) : M unit :=
  fun st =>
    match results st with
    | Some r => write_handle f (json_dump r) st
    | None => (Return tt, st)
    end.

Definition summary_line (kv : string * string) : string :=
  let status_icon := if String.eqb (snd kv) "success" then "✓" else "⚠️" in
  "  " +:+ status_icon +:+ " " +:+ fst kv +:+ ": " +:+ snd kv.

Definition SOURCE : FS.Path := FS.path_of "copy_of_ada.py".
Definition RAW_DIR : FS.Path := FS.path_of "data/raw".
Definition KEPLER : FS.Path := FS.path_of "data/raw/kepler_cumulative.csv".
Definition SUMMARY : FS.Path := FS.path_of "pipeline_results.json".

(** Lines 53-64: the banner, the directories, the empty Run Record. *)
Definition startup : M unit :=
  print rule ;;
  print "EXOPLANET DETECTION PIPELINE" ;;
  print "NASA Space Apps Challenge 2025" ;;
  print (rule +:+ PyStr.nl) ;;
  setup_environment ;;
  let* ts := now in
  set_results {| timestamp := DateTime.isoformat ts; phases := [] |}.

(** Lines 66-82: the source is loaded and sliced, phase 1 is run and
    recorded, and the raw data is looked for. *)
Definition scraping : M unit :=
  let* full_code := read_text SOURCE in
  let* ok := run_phase "Data Scraping" (scraper_section full_code) in
  (if ok : bool then set_phase "data_scraping" "success"
   else
     set_phase "data_scraping" "failed" ;;
     print (PyStr.nl +:+ "⚠️ Data scraping failed, but continuing with pipeline...")) ;;
  let* raw := path_exists RAW_DIR in
  let* csvs := (if raw : bool then glob_csv RAW_DIR else ret []) in
  match csvs with
  | [] => print (PyStr.nl +:+ "⚠️ Warning: No raw data found. Some phases may fail.")
  | _ => ret tt
  end.

(** Lines 84-91: the gate of phase 2. *)
Definition eda_gate : M unit :=
  let* kepler := path_exists KEPLER in
  if kepler : bool then
    print (PyStr.nl +:+ "✓ Raw data found, proceeding with EDA") ;;
    set_phase "eda" "skipped - requires manual review"
  else
    print (PyStr.nl +:+ "⚠️ Skipping EDA - no data available") ;;
    set_phase "eda" "skipped - no data".

(** What lines 97-107 print. *)
Definition completion_report (ps : PyDict.dict) : list string :=
  [ PyStr.nl +:+ rule;
    "PIPELINE EXECUTION COMPLETE";
    rule;
    PyStr.nl +:+ "Results saved to: pipeline_results.json";
    "Logs saved to: logs/";
    PyStr.nl +:+ "Phase Summary:" ]
  ++ map summary_line ps.

(** Lines 93-107: the summary artifact and the report. *)
Definition finish : M unit :=
  (let* f := open_w SUMMARY in
   dump_results f) ;;
  print (PyStr.nl +:+ rule) ;;
  print "PIPELINE EXECUTION COMPLETE" ;;
  print rule ;;
  print (PyStr.nl +:+ "Results saved to: pipeline_results.json") ;;
  print "Logs saved to: logs/" ;;
  print (PyStr.nl +:+ "Phase Summary:") ;;
  let* ps := get_phases in
  for_each ps (fun kv => print (summary_line kv)).

Definition main : M unit :=
  startup ;; scraping ;; eda_gate ;; finish.

End Runner.

(** ** The claims about the Source Extractor, as predicates *)

(** A marker is missing, or the end marker is not strictly after the
    start marker. *)
Definition markers_bad (full_code start_marker end_marker : string) : Prop :=
  PyStr.find full_code start_marker = -1
  \/ PyStr.find full_code end_marker = -1
  \/ PyStr.find full_code end_marker <= PyStr.find full_code start_marker.

(** [k] is the first index after [i] at which [sub] starts in [text]. *)
Definition first_after (sub text : string) (i k : nat) : Prop :=
  (i < k)%nat /\ PyStr.occurs_at sub text k
  /\ forall k', (i < k' < k)%nat -> ~ PyStr.occurs_at sub text k'.


(** [results['phases'][k] = v] on the Run Record. *)
Definition record_phase (k v : string) (r : RunRecord) : RunRecord :=
  {| timestamp := timestamp r; phases := PyDict.set k v (phases r) |}.

(** The label that the gate of phase 2 records: it asks only whether
    [data/raw/kepler_cumulative.csv] is there. *)
Definition eda_label (s : FS.state) : string :=
  match FS.stat s KEPLER with
  | Return _ => "skipped - requires manual review"
  | Raise _ => "skipped - no data"
  end.

(** The names that occur as parts of the paths [ds]. *)
Definition part_names (ds : list string) : list string :=
  concat (map (fun d => FS.parts (FS.path_of d)) ds).

(** ** The claims about the runner, as predicates *)

Section Stated.

Context {Globals : Type}.
Variable exec : string -> @Env Globals -> outcome * @Env Globals.
Variable clock : nat -> DateTime.datetime.

(** C1 as stated, for the run that starts in [e]: with a missing or
    misordered marker in the source, the run fails and no phase runs. *)
Definition bad_markers_abort (e : Env) : Prop :=
  forall text,
    FS.read_text (files e) SOURCE = Return text ->
    markers_bad text START_MARKER END_MARKER ->
    exists x st',
      main exec clock (initial e) = (Raise x, st') /\ history st' = [].

(** C3 as stated: whenever the body raises an error, [run_phase] returns
    [False] and the log of the phase holds the name, the time and the
    trace. *)
Definition failure_always_logged : Prop :=
  forall phase_name code st e env',
    exec code (entered phase_name (env st)) = (Raises e, env') ->
    is_Exception e = true ->
    exists st',
      run_phase exec clock phase_name code st = (Return false, st')
      /\ FS.read_text (files (env st')) (log_file phase_name)
         = Return (log_content phase_name (clock (ticks env')) e).

End Stated.

(** ** A small interpreter and concrete environments *)

Module Demo.

Definition RuntimeError : PyExc :=
  {| is_Exception := true;
     tb_frames := "  File <string>, line 1, in <module>" +:+ PyStr.nl;
     exc_line := "RuntimeError: boom" |}.

Definition SystemExit : PyExc :=
  {| is_Exception := false;
     tb_frames := "  File <string>, line 1, in <module>" +:+ PyStr.nl;
     exc_line := "SystemExit: 1" |}.

Definition mentions (word code : string) : bool :=
  match String.index 0 word code with Some _ => true | None => false end.

(** Bodies that mention [raise] raise a [RuntimeError], those that
    mention [sys.exit] a [SystemExit], and all others complete; none
    touches the environment. *)
Definition toy_exec (code : string) (e : @Env unit) : outcome * @Env unit :=
  if mentions "raise" code then (Raises RuntimeError, e)
  else if mentions "sys.exit" code then (Raises SystemExit, e)
  else (Completed, e).

Definition toy_clock (n : nat) : DateTime.datetime :=
  DateTime.MkDateTime 2025 10 4 12 30 (n mod 60) 0.

Definition home : FS.loc := ["w"; "home"].

(** [/home/w], empty. *)
Definition empty_tree : gmap FS.loc FS.node :=
  <[ ["w"; "home"] := FS.Dir ]> (<[ ["home"] := FS.Dir ]> ∅).

Definition env_of (t : gmap FS.loc FS.node) : @Env unit :=
  {| files := FS.MkState t home; stdout := []; ticks := 0; globals := tt |}.

Definition with_source (content : string) : gmap FS.loc FS.node :=
  <[ "copy_of_ada.py" :: home := FS.File content ]> empty_tree.

(** [/home/w] with its [logs] directory. *)
Definition logs_tree : gmap FS.loc FS.node :=
  <[ "logs" :: home := FS.Dir ]> empty_tree.

Definition raising_body : string := "raise RuntimeError('boom')".

(** A source with the start marker and no end marker. *)
Definition src_no_end : string :=
  START_MARKER +:+ PyStr.nl +:+ "    pass" +:+ PyStr.nl.

(** A source with neither marker. *)
Definition src_no_markers : string := "print(1)" +:+ PyStr.nl.

(** A source whose scraping section raises. *)
Definition src_raising : string :=
  START_MARKER +:+ PyStr.nl
  +:+ "    raise RuntimeError('boom')" +:+ PyStr.nl +:+ END_MARKER +:+ PyStr.nl.

(** The state in which [setup_environment] leaves the empty [/home/w]. *)
Definition after_setup : @RunState unit := Eval vm_compute in
  snd (setup_environment (initial (env_of empty_tree))).

(** The environment of a run in [/home/w] that holds only the source. *)
Definition env_with (content : string) : @Env unit :=
  env_of (with_source content).

(** The same with a [data/raw/kepler_cumulative.csv] that holds [content]. *)
Definition env_with_kepler (source content : string) : @Env unit :=
  env_of (<[ "kepler_cumulative.csv" :: "raw" :: "data" :: home := FS.File content ]>
            (<[ "raw" :: "data" :: home := FS.Dir ]>
               (<[ "data" :: home := FS.Dir ]> (with_source source)))).

(** The states of the run on [src_raising]: after lines 53-64, after the
    call of [run_phase], after lines 66-82 and at the end. *)
Definition raising_started : @RunState unit := Eval vm_compute in
  snd (startup toy_clock (initial (env_with src_raising))).

Definition raising_phase_done : @RunState unit := Eval vm_compute in
  snd (run_phase toy_exec toy_clock "Data Scraping"
           (scraper_section src_raising) raising_started).

Definition raising_scraped : @RunState unit := Eval vm_compute in
  snd (scraping toy_exec toy_clock raising_started).

Definition raising_final : @RunState unit := Eval vm_compute in
  snd (main toy_exec toy_clock (initial (env_with src_raising))).

(** The run on [src_no_end] after lines 53-64. *)
Definition no_end_started : @RunState unit := Eval vm_compute in
  snd (startup toy_clock (initial (env_with src_no_end))).

(** The end of the run on [src_no_markers]. *)
Definition no_markers_final : @RunState unit := Eval vm_compute in
  snd (main toy_exec toy_clock (initial (env_with src_no_markers))).

End Demo.

(** ** More concrete data *)

Module Demo2.
Import Demo.

(** A source whose scraping section ends the interpreter. *)
Definition src_exiting : string :=
  START_MARKER +:+ PyStr.nl
  +:+ "    sys.exit(1)" +:+ PyStr.nl +:+ END_MARKER +:+ PyStr.nl.

(** [/home/w] where [logs] is a regular file. *)
Definition logs_is_file : gmap FS.loc FS.node :=
  <[ "logs" :: home := FS.File "notes" ]> empty_tree.

(** [/home/w] with the source [src_raising] and a directory in the place
    of [pipeline_results.json]. *)
Definition summary_is_dir : gmap FS.loc FS.node :=
  <[ "pipeline_results.json" :: home := FS.Dir ]> (with_source src_raising).

Definition exiting_started : @RunState unit := Eval vm_compute in
  snd (startup toy_clock (initial (env_with src_exiting))).

Definition blocked_started : @RunState unit := Eval vm_compute in
  snd (startup toy_clock (initial (env_of summary_is_dir))).

Definition blocked_phase_done : @RunState unit := Eval vm_compute in
  snd (run_phase toy_exec toy_clock "Data Scraping"
         (scraper_section src_raising) blocked_started).

End Demo2.

(** [c in s] for one character [c]. *)
Fixpoint has_char (c : ascii) (s : string) : bool :=
  match s with
  | EmptyString => false
  | String a s' => Ascii.eqb a c || has_char c s'
  end.

(** What lines 76-82 of [main] print after phase 1 has answered [ok], in
    the file system [s]. *)
Definition data_notes (ok : bool) (s : FS.state) : list string :=
  (if ok then []
   else [PyStr.nl +:+ "⚠️ Data scraping failed, but continuing with pipeline..."])
  ++ match (if FS.exists_ s RAW_DIR then FS.glob_csv s RAW_DIR else []) with
     | [] => [PyStr.nl +:+ "⚠️ Warning: No raw data found. Some phases may fail."]
     | _ :: _ => []
     end.

(** What the gate of phase 2 prints. *)
Definition gate_note (s : FS.state) : string :=
  if FS.exists_ s KEPLER
  then PyStr.nl +:+ "✓ Raw data found, proceeding with EDA"
  else PyStr.nl +:+ "⚠️ Skipping EDA - no data available".

Module Demo3.
Import Demo.

(** The run on [src_raising] with a [kepler_cumulative.csv] in place:
    after lines 53-64 and after the call of [run_phase]. *)
Definition kepler_started : @RunState unit := Eval vm_compute in
  snd (startup toy_clock
         (initial (env_with_kepler src_raising "not,a,table"))).

Definition kepler_phase_done : @RunState unit := Eval vm_compute in
  snd (run_phase toy_exec toy_clock "Data Scraping"
         (scraper_section src_raising) kepler_started).

(** A state that holds the source and a place for the log, and nothing
    else. *)
Definition bare : @RunState unit :=
  initial (env_of (<[ "logs" :: home := FS.Dir ]> (with_source src_raising))).

(** The same with a record of results in place, as [main] has it from
    line 58 on, and the state in which [run_phase] leaves it. *)
Definition bare_recording : @RunState unit := Eval vm_compute in
  snd (set_results {| timestamp := "2025-10-04T12:30:00"; phases := [] |} bare).

Definition bare_recording_phase_done : @RunState unit := Eval vm_compute in
  snd (run_phase toy_exec toy_clock "Data Scraping"
         (scraper_section src_raising) bare_recording).

End Demo3.
(** * Properties *)

(** ** Strings, [find] and slices *)

Module PyStrFacts.
Import PyStr.

Lemma substring_length s : forall n m,
  String.length (String.substring n m s) = Nat.min m (String.length s - n).
Proof.
  induction s as [|c s IH]; intros [|n] [|m]; simpl; try reflexivity.
  - rewrite IH. simpl. rewrite Nat.sub_0_r. reflexivity.
  - rewrite IH. reflexivity.
  - rewrite IH. reflexivity.
Qed.

Lemma substring_zero_len s : forall n, String.substring n 0 s = EmptyString.
Proof. induction s as [|c s IH]; intros [|n]; simpl; auto. Qed.

Lemma substring_past_end s : forall n m,
  (String.length s <= n)%nat -> String.substring n m s = EmptyString.
Proof.
  induction s as [|c s IH]; intros [|n] [|m] H; simpl in *; auto; try lia;
    apply IH; lia.
Qed.

Lemma index_empty s : String.index 0 EmptyString s = Some 0%nat.
Proof. destruct s; reflexivity. Qed.

Lemma index_occurs sub s i :
  String.index 0 sub s = Some i -> occurs_at sub s i.
Proof.
  intros H. pose proof (String.index_correct1 _ _ _ _ H) as Hsub.
  split; [|exact Hsub].
  destruct sub as [|a sub].
  - rewrite index_empty in H. inversion H; subst. simpl. lia.
  - pose proof (substring_length s i (String.length (String a sub))) as Hl.
    rewrite Hsub in Hl. cbn [String.length] in *. lia.
Qed.

Lemma find_found text sub i :
  find text sub = Z.of_nat i ->
  occurs_at sub text i /\ forall k, (k < i)%nat -> ~ occurs_at sub text k.
Proof.
  unfold find. destruct (String.index 0 sub text) as [n|] eqn:H; [|lia].
  intros Hn. assert (n = i) by lia. subst n. split.
  - apply index_occurs; assumption.
  - intros k Hk [_ Hocc].
    exact (String.index_correct2 _ _ _ _ H k (Nat.le_0_l k) Hk Hocc).
Qed.

Lemma find_absent text sub :
  find text sub = -1 -> forall k, ~ occurs_at sub text k.
Proof.
  unfold find. destruct (String.index 0 sub text) as [n|] eqn:H; [lia|].
  intros _ k [_ Hocc]. destruct sub as [|a sub].
  - rewrite index_empty in H. discriminate.
  - apply (String.index_correct3 0 k _ _ H); [discriminate | lia | exact Hocc].
Qed.

Lemma find_cases text sub :
  find text sub = -1 \/ exists i : nat, find text sub = Z.of_nat i.
Proof.
  unfold find. destruct (String.index 0 sub text); [right; eauto | left; auto].
Qed.

Lemma find_le_len text sub i :
  find text sub = Z.of_nat i -> (i <= String.length text)%nat.
Proof. intros H. apply find_found in H as [[H _] _]. lia. Qed.

Lemma slice_inside s (i j : nat) :
  (i <= String.length s)%nat -> (j <= String.length s)%nat ->
  slice s (Z.of_nat i) (Z.of_nat j) = String.substring i (j - i) s.
Proof.
  intros Hi Hj. unfold slice, clamp_index, len.
  destruct (Z.ltb_spec (Z.of_nat i) 0); [lia|].
  destruct (Z.ltb_spec (Z.of_nat j) 0); [lia|].
  rewrite !Z.min_l by lia. f_equal; lia.
Qed.

(** [s[i:-1]]: everything from [i] on but the last character. *)
Lemma slice_to_minus_one s (i : nat) :
  (i <= String.length s)%nat ->
  slice s (Z.of_nat i) (-1) = String.substring i (String.length s - 1 - i) s.
Proof.
  intros Hi. unfold slice, clamp_index, len.
  destruct (Z.ltb_spec (Z.of_nat i) 0); [lia|].
  change (-1 <? 0) with true. cbv iota.
  rewrite Z.min_l by lia. f_equal; lia.
Qed.

(** [s[-1:j]] is empty when [j] is the index of an occurrence. *)
Lemma slice_from_minus_one s (j : Z) :
  j <= Z.max (len s - 1) 0 -> slice s (-1) j = EmptyString.
Proof.
  intros Hj. unfold slice, clamp_index.
  change (-1 <? 0) with true. cbv iota.
  match goal with
  | |- String.substring _ (Z.to_nat ?d) _ = _ =>
      assert (Z.to_nat d = 0%nat) as ->
  end.
  - destruct (Z.ltb_spec j 0); lia.
  - apply substring_zero_len.
Qed.

Lemma append_cons (x : ascii) (a b : string) :
  String x a +:+ b = String x (a +:+ b).
Proof. reflexivity. Qed.

Lemma append_assoc (a b c : string) : (a +:+ b) +:+ c = a +:+ (b +:+ c).
Proof.
  induction a as [|x a IH]; [reflexivity|].
  rewrite !append_cons, IH. reflexivity.
Qed.

Lemma append_nil_r (a : string) : a +:+ EmptyString = a.
Proof.
  induction a as [|x a IH]; [reflexivity|].
  rewrite append_cons, IH. reflexivity.
Qed.

Lemma contains_middle (a b c : string) : contains (a +:+ b +:+ c) b.
Proof. exists a, c. reflexivity. Qed.

Lemma contains_end (a b : string) : contains (a +:+ b) b.
Proof. exists a, EmptyString. rewrite append_nil_r. reflexivity. Qed.

End PyStrFacts.

(** ** Timestamps *)

Module DateTimeFacts.
Import DateTime.

Lemma matches_app t1 : forall t2 s1 s2,
  matches t1 s1 = true -> matches t2 s2 = true ->
  matches (t1 ++ t2) (s1 +:+ s2) = true.
Proof.
  induction t1 as [|[|a] t1 IH]; intros t2 s1 s2 H1 H2;
    destruct s1 as [|c s1]; simpl in H1; try discriminate;
    try (exact H2);
    rewrite PyStrFacts.append_cons; simpl;
    apply andb_true_iff in H1 as [Hc H1]; rewrite Hc; simpl; auto.
Qed.

Lemma digit_char_is_digit n : is_digit (digit_char n) = true.
Proof.
  unfold is_digit, digit_char.
  pose proof (Nat.mod_upper_bound n 10 ltac:(lia)) as Hlt.
  rewrite nat_ascii_embedding by lia.
  apply andb_true_iff. split; apply Nat.leb_le; lia.
Qed.

Lemma matches_zfill w : forall n, matches (digits w) (zfill w n) = true.
Proof.
  induction w as [|w IH]; intros n; [reflexivity|].
  unfold digits in *. cbn [repeat zfill]. rewrite repeat_cons.
  apply matches_app; [apply IH|].
  cbn [matches]. rewrite digit_char_is_digit. reflexivity.
Qed.

Lemma matches_lit_app (a : ascii) t s :
  matches t s = true ->
  matches ([Lit a] ++ t) (String a EmptyString +:+ s) = true.
Proof.
  intros H. rewrite PyStrFacts.append_cons. simpl.
  rewrite Ascii.eqb_refl. exact H.
Qed.

Lemma to_seconds_shape dt : matches tpl_seconds (to_seconds dt) = true.
Proof.
  unfold tpl_seconds, to_seconds.
  repeat (apply matches_app; [apply matches_zfill|]; apply matches_lit_app).
  apply matches_zfill.
Qed.

(** What [isoformat] returns has the shape of an ISO-8601 date and time. *)
Lemma isoformat_shape dt : iso8601_shape (isoformat dt) = true.
Proof.
  unfold iso8601_shape, isoformat. apply orb_true_iff.
  destruct (microsecond dt =? 0)%nat.
  - left. rewrite PyStrFacts.append_nil_r. apply to_seconds_shape.
  - right. apply matches_app; [apply to_seconds_shape|].
    unfold tpl_fraction. apply matches_lit_app, matches_zfill.
Qed.

End DateTimeFacts.

(** ** The Source Extractor *)

Section Extractor.
Import PyStr PyStrFacts.

Lemma find_empty text : find text EmptyString = 0.
Proof. unfold find. rewrite index_empty. reflexivity. Qed.

(** An index that [find] returns is at most [max (len - 1) 0], unless the
    text is searched for the empty string, which is found at 0. *)
Lemma find_upper text sub : find text sub <= Z.max (len text - 1) 0.
Proof.
  destruct (find_cases text sub) as [H | [j H]]; [lia|].
  destruct sub as [|a sub].
  - rewrite find_empty in *. lia.
  - apply find_found in H as H'. destruct H' as [[Hfit _] _].
    rewrite H. unfold len. cbn [String.length] in Hfit. lia.
Qed.

(** The slice with a missing or misordered marker: the empty string,
    except when only the end marker is missing; then it is the text from
    the start marker up to, but not including, the last character. *)
Lemma extract_when_markers_bad (text s e : string) :
  markers_bad text s e ->
  extract text s e =
    if (0 <=? find text s) && (find text e =? -1)
    then String.substring (Z.to_nat (find text s))
           (String.length text - 1 - Z.to_nat (find text s)) text
    else EmptyString.
Proof.
  intros Hbad. unfold extract.
  destruct (find_cases text s) as [Hs | [i Hs]].
  - rewrite Hs. cbn [Z.leb Z.compare andb].
    apply slice_from_minus_one, find_upper.
  - pose proof (find_le_len _ _ _ Hs) as Hi. rewrite Hs.
    destruct (Z.leb_spec 0 (Z.of_nat i)); [|lia]. cbn [andb].
    destruct (find_cases text e) as [He | [j He]].
    + rewrite He. cbn [Z.eqb]. rewrite Nat2Z.id.
      apply slice_to_minus_one; assumption.
    + pose proof (find_le_len _ _ _ He) as Hj. rewrite He.
      destruct (Z.eqb_spec (Z.of_nat j) (-1)); [lia|].
      rewrite slice_inside by assumption.
      assert ((j - i)%nat = 0%nat) as ->.
      { destruct Hbad as [Hb | [Hb | Hb]]; rewrite ?Hs, ?He in Hb; lia. }
      apply substring_zero_len.
Qed.

(** The markers are present and ordered, that is not [markers_bad],
    exactly when [find] answers an index for each and the one of the end
    marker is the greater. *)
Lemma markers_ordered_iff (text s e : string) :
  ~ markers_bad text s e
  <-> exists i j : nat,
        find text s = Z.of_nat i /\ find text e = Z.of_nat j /\ (i < j)%nat.
Proof.
  unfold markers_bad. split.
  - intros Hok.
    destruct (find_cases text s) as [Hs | [i Hs]]; [tauto|].
    destruct (find_cases text e) as [He | [j He]]; [tauto|].
    exists i, j. split; [exact Hs|]. split; [exact He|].
    rewrite Hs, He in Hok. lia.
  - intros (i & j & Hs & He & Hij) Hbad. rewrite Hs, He in Hbad. lia.
Qed.

(** C2: when both markers are present and the end marker is found after
    the start marker (the first occurrences are at [i < j]), the body is
    the text from the start of the first start marker to the start of
    the end marker at [j], and that end marker is the first one that
    stands after the start marker. *)
Theorem extract_ordered_markers (text s e : string) (i j : nat) :
  find text s = Z.of_nat i ->
  find text e = Z.of_nat j ->
  (i < j)%nat ->
  extract text s e = String.substring i (j - i) text
  /\ occurs_at s text i
  /\ (forall k, (k < i)%nat -> ~ occurs_at s text k)
  /\ first_after e text i j.
Proof.
  intros Hs He Hij.
  pose proof (find_le_len _ _ _ Hs) as Hi.
  pose proof (find_le_len _ _ _ He) as Hj.
  destruct (find_found _ _ _ Hs) as [Hocc_s Hfirst_s].
  destruct (find_found _ _ _ He) as [Hocc_e Hfirst_e].
  split; [unfold extract; rewrite Hs, He; apply slice_inside; assumption|].
  split; [exact Hocc_s|]. split; [exact Hfirst_s|].
  split; [exact Hij|]. split; [exact Hocc_e|].
  intros k' Hk'. apply Hfirst_e. lia.
Qed.

Lemma extract_ordered_markers_witness :
  extract "xx<a>body<b>yy<b>" "<a>" "<b>" = "<a>body"
  /\ first_after "<b>" "xx<a>body<b>yy<b>" 2 9.
Proof.
  destruct (extract_ordered_markers "xx<a>body<b>yy<b>" "<a>" "<b>" 2 9)
    as (Hbody & _ & _ & Hnext); [reflexivity | reflexivity | lia |].
  split; [exact Hbody | exact Hnext].
Defined.

(** An end marker that also stands before the start marker makes the
    markers misordered: [find] answers the earlier one, and the slice is
    empty. *)
Example end_marker_before_start :
  markers_bad "<b><a>body<b>" "<a>" "<b>"
  /\ extract "<b><a>body<b>" "<a>" "<b>" = EmptyString.
Proof. split; [right; right; vm_compute; discriminate | reflexivity]. Qed.

End Extractor.

(** ** The file system *)

Module FSFacts.
Import FS.

Lemma node_at_cons t c l : node_at t (c :: l) = t !! (c :: l).
Proof. reflexivity. Qed.

Lemma rev_names (l : list string) : rev l ⊆ l.
Proof.
  intros x Hx. apply list_elem_of_In. apply list_elem_of_In in Hx.
  apply in_rev. exact Hx.
Qed.

Lemma tail_names (c : string) (l : list string) : l ⊆ c :: l.
Proof. intros x Hx. apply list_elem_of_further. exact Hx. Qed.

Lemma extends_refl names s : extends names s s.
Proof. split; [reflexivity | intros l; left; reflexivity]. Qed.

Lemma extends_weaken names names' s s' :
  names ⊆ names' -> extends names s s' -> extends names' s s'.
Proof.
  intros Hsub [Hcwd Hl]. split; [exact Hcwd|].
  intros l. destruct (Hl l) as [H | (H1 & H2 & c & l0 & -> & Hc)];
    [left; exact H | right; eauto 8].
Qed.

Lemma extends_trans names s1 s2 s3 :
  extends names s1 s2 -> extends names s2 s3 -> extends names s1 s3.
Proof.
  intros [Hc1 H1] [Hc2 H2]. split; [congruence|].
  intros l. destruct (H2 l) as [E2 | (N2 & D2 & Hn)].
  - rewrite E2. apply H1.
  - destruct (H1 l) as [E1 | (N1 & D1 & _)].
    + right. rewrite <- E1. auto.
    + congruence.
Qed.

Lemma extends_node names s s' l n :
  extends names s s' ->
  node_at (tree s) l = Some n -> node_at (tree s') l = Some n.
Proof.
  intros [_ H] Hn. destruct l as [|c l]; [exact Hn|].
  rewrite node_at_cons in *.
  destruct (H (c :: l)) as [E | (N & _)]; congruence.
Qed.

Lemma walk_mono names s s' ps : forall cur l,
  extends names s s' ->
  walk (tree s) cur ps = Return l -> walk (tree s') cur ps = Return l.
Proof.
  induction ps as [|c ps IH]; intros cur l Hext Hw; simpl in *; [exact Hw|].
  destruct (node_at (tree s) cur) as [[|]|] eqn:Hn; try discriminate.
  rewrite (extends_node _ _ _ _ _ Hext Hn). eauto.
Qed.

Lemma resolve_mono names s s' p l :
  extends names s s' -> resolve s p = Return l -> resolve s' p = Return l.
Proof.
  intros Hext. unfold resolve. destruct Hext as [Hcwd Hl] eqn:E. rewrite Hcwd.
  apply (walk_mono names); split; assumption.
Qed.

Lemma stat_mono names s s' p n :
  extends names s s' -> stat s p = Return n -> stat s' p = Return n.
Proof.
  intros Hext. unfold stat.
  destruct (resolve s p) as [l|] eqn:Hr; [|discriminate].
  rewrite (resolve_mono _ _ _ _ _ Hext Hr).
  destruct (node_at (tree s) l) as [m|] eqn:Hn; [|discriminate].
  rewrite (extends_node _ _ _ _ _ Hext Hn). auto.
Qed.

Lemma is_dir_mono names s s' p :
  extends names s s' -> is_dir s p = true -> is_dir s' p = true.
Proof.
  intros Hext. unfold is_dir.
  destruct (stat s p) as [[|]|] eqn:Hs; try discriminate.
  rewrite (stat_mono _ _ _ _ _ Hext Hs). auto.
Qed.

(** The location a walk reaches through a last part that is a name. *)
Lemma walk_snoc t ps : forall cur c l,
  walk t cur (ps ++ [c]) = Return l ->
  exists cur', l = step cur' c.
Proof.
  induction ps as [|d ps IH]; intros cur c l Hw; simpl in *.
  - destruct (node_at t cur) as [[|]|]; try discriminate.
    inversion Hw. eauto.
  - destruct (node_at t cur) as [[|]|]; try discriminate. eauto.
Qed.

Lemma resolve_named s p l :
  names_entry p = true -> resolve s p = Return l ->
  exists c l0, l = c :: l0 /\ c ∈ parts p.
Proof.
  unfold names_entry, resolve. intros Hname Hw.
  destruct (last (parts p)) as [c|] eqn:Hlast; [|discriminate].
  apply last_Some in Hlast as [ps Hps]. rewrite Hps in Hw.
  apply walk_snoc in Hw as [cur' ->].
  unfold step. destruct (String.eqb c ".."); [discriminate|].
  exists c, cur'. split; [reflexivity|]. rewrite Hps.
  apply elem_of_app. right. apply list_elem_of_singleton. reflexivity.
Qed.

Lemma os_mkdir_extends p s s' :
  os_mkdir p s = Return s' ->
  extends (parts p) s s' /\ is_dir s' p = true.
Proof.
  unfold os_mkdir. intros H.
  destruct (resolve s p) as [l|] eqn:Hr; [|discriminate].
  destruct (node_at (tree s) l) as [n|] eqn:Hn; [discriminate|].
  destruct (names_entry p) eqn:Hname; [|discriminate].
  inversion H; subst s'; clear H.
  destruct (resolve_named _ _ _ Hname Hr) as (c & l0 & -> & Hc).
  rewrite node_at_cons in Hn.
  assert (extends (parts p) s
            {| tree := <[c :: l0 := Dir]> (tree s); cwd := cwd s |}) as Hext.
  { split; [reflexivity|]. intros l. simpl.
    destruct (decide (l = c :: l0)) as [->|Hne].
    - right. rewrite lookup_insert_eq. eauto 8.
    - left. apply lookup_insert_ne. congruence. }
  split; [exact Hext|].
  unfold is_dir, stat. rewrite (resolve_mono _ _ _ _ _ Hext Hr).
  simpl. rewrite lookup_insert_eq. reflexivity.
Qed.

Lemma mkdir_here_extends exist_ok p s s' :
  mkdir_here exist_ok p s = Return s' ->
  extends (parts p) s s' /\ is_dir s' p = true.
Proof.
  unfold mkdir_here. destruct (os_mkdir p s) as [s1|e] eqn:Hmk.
  - intros H; inversion H; subst. apply os_mkdir_extends; assumption.
  - destruct e; try discriminate;
      (destruct (exist_ok && is_dir s p) eqn:Hok; [|discriminate]);
      intros H; inversion H; subst;
      apply andb_true_iff in Hok as [_ Hdir];
      (split; [apply extends_refl | exact Hdir]).
Qed.

Lemma mkdir_parents_extends abs rparts : forall exist_ok s r s',
  mkdir_parents abs rparts exist_ok s = (r, s') ->
  extends rparts s s'
  /\ (r = Return tt -> is_dir s' {| absolute := abs; parts := rev rparts |} = true).
Proof.
  induction rparts as [|c rparent IH]; intros exist_ok s r s' H;
    cbn [mkdir_parents] in H.
  - destruct (os_mkdir _ s) as [s1|e] eqn:Hmk.
    + inversion H; subst. apply os_mkdir_extends in Hmk as [Hext Hdir].
      split; [exact Hext | auto].
    + destruct e;
        try (destruct (exist_ok && is_dir s _) eqn:Hok;
             [apply andb_true_iff in Hok as [_ Hdir]|]);
        inversion H; subst; (split; [apply extends_refl | auto; discriminate]).
  - destruct (os_mkdir _ s) as [s1|e] eqn:Hmk.
    + inversion H; subst. apply os_mkdir_extends in Hmk as [Hext Hdir].
      split; [|auto]. eapply extends_weaken; [|exact Hext].
      cbn [parts]. apply rev_names.
    + destruct e;
        try (destruct (exist_ok && is_dir s _) eqn:Hok;
             [apply andb_true_iff in Hok as [_ Hdir]|];
             inversion H; subst; (split; [apply extends_refl | auto; discriminate])).
      destruct (mkdir_parents abs rparent true s) as [[[]|e1] s1] eqn:Hrec.
      * apply IH in Hrec as [Hext1 _].
        assert (extends (c :: rparent) s s1) as Hext1'
          by (eapply extends_weaken; [|exact Hext1]; apply tail_names).
        destruct (mkdir_here exist_ok _ s1) as [s2|e2] eqn:Hhere.
        -- inversion H; subst. apply mkdir_here_extends in Hhere as [Hext2 Hdir].
           split; [|auto]. eapply extends_trans; [exact Hext1'|].
           eapply extends_weaken; [|exact Hext2].
           cbn [parts]. apply rev_names.
        -- inversion H; subst. split; [exact Hext1' | discriminate].
      * inversion H; subst. apply IH in Hrec as [Hext1 _].
        split; [|discriminate]. eapply extends_weaken; [|exact Hext1].
        apply tail_names.
Qed.

Lemma mkdir_p_extends p s r s' :
  mkdir_p p s = (r, s') ->
  extends (parts p) s s' /\ (r = Return tt -> is_dir s' p = true).
Proof.
  unfold mkdir_p. intros H. apply mkdir_parents_extends in H as [Hext Hdir].
  rewrite rev_involutive in Hdir. destruct p as [a ps]. simpl in *. split; [|exact Hdir].
  eapply extends_weaken; [|exact Hext]. apply rev_names.
Qed.

(** Making a directory that is there changes nothing. *)
Lemma mkdir_p_existing p s :
  is_dir s p = true -> mkdir_p p s = (Return tt, s).
Proof.
  intros Hdir. unfold mkdir_p.
  assert (os_mkdir p s = Raise EEXIST) as Hmk.
  { unfold os_mkdir. unfold is_dir, stat in Hdir.
    destruct (resolve s p) as [l|]; [|discriminate].
    destruct (node_at (tree s) l); [reflexivity | discriminate]. }
  destruct p as [a ps]. simpl.
  destruct (rev ps) as [|c rparent] eqn:Hrev;
    cbn [mkdir_parents]; rewrite <- Hrev, rev_involutive, Hmk, Hdir; reflexivity.
Qed.

(** A relative path leads nowhere when the working directory is gone. *)
Lemma os_mkdir_no_cwd ps s :
  node_at (tree s) (cwd s) <> Some Dir ->
  exists e, os_mkdir {| absolute := false; parts := ps |} s = Raise e.
Proof.
  intros Hcwd. unfold os_mkdir, resolve, names_entry. cbn [absolute parts].
  destruct ps as [|c ps]; cbn [walk last].
  - destruct (node_at (tree s) (cwd s)); eauto.
  - destruct (node_at (tree s) (cwd s)) as [[|]|]; eauto. congruence.
Qed.

Lemma mkdir_here_no_cwd exist_ok ps s s' :
  node_at (tree s) (cwd s) <> Some Dir ->
  mkdir_here exist_ok {| absolute := false; parts := ps |} s = Return s' ->
  s' = s.
Proof.
  intros Hcwd. unfold mkdir_here.
  destruct (os_mkdir_no_cwd ps s Hcwd) as [e ->].
  destruct e; try discriminate;
    (destruct (exist_ok && is_dir s _); [|discriminate]); congruence.
Qed.

Lemma mkdir_parents_no_cwd rparts : forall exist_ok s r s',
  node_at (tree s) (cwd s) <> Some Dir ->
  mkdir_parents false rparts exist_ok s = (r, s') -> s' = s.
Proof.
  induction rparts as [|c rparent IH]; intros exist_ok s r s' Hcwd H;
    cbn [mkdir_parents] in H.
  - destruct (os_mkdir_no_cwd (rev []) s Hcwd) as [e0 He0].
    rewrite He0 in H.
    destruct e0; try (destruct (exist_ok && is_dir s _)); congruence.
  - destruct (os_mkdir_no_cwd (rev (c :: rparent)) s Hcwd) as [e1 He1].
    rewrite He1 in H.
    destruct e1; try (destruct (exist_ok && is_dir s _); congruence).
    destruct (mkdir_parents false rparent true s) as [[[]|e2] s1] eqn:Hrec;
      apply IH in Hrec; try assumption; subst s1; [|congruence].
    destruct (mkdir_here exist_ok _ s) as [s2|e3] eqn:Hhere; [|congruence].
    apply mkdir_here_no_cwd in Hhere; congruence.
Qed.

(** Nodes whose name is none of [names] are as they were. *)
Lemma extends_frame names s s' name l0 :
  extends names s s' -> name ∉ names ->
  tree s' !! (name :: l0) = tree s !! (name :: l0).
Proof.
  intros [_ H] Hname.
  destruct (H (name :: l0)) as [E | (_ & _ & c & l1 & Heq & Hc)]; [exact E|].
  inversion Heq; subst. contradiction.
Qed.

Lemma stat_name_frame names s s' name :
  extends names s s' ->
  (node_at (tree s) (cwd s) <> Some Dir -> s' = s) ->
  name ∉ names -> String.eqb name ".." = false ->
  stat s' {| absolute := false; parts := [name] |}
  = stat s {| absolute := false; parts := [name] |}.
Proof.
  intros Hext Hgone Hname Hdots.
  destruct (decide (node_at (tree s) (cwd s) = Some Dir)) as [Hcwd|Hcwd];
    [|rewrite (Hgone Hcwd); reflexivity].
  pose proof (extends_node _ _ _ _ _ Hext Hcwd) as Hcwd'.
  destruct Hext as [Ec Hl] eqn:E. clear E.
  unfold stat, resolve. cbn [absolute parts walk].
  rewrite Ec in *. rewrite Hcwd, Hcwd'. unfold step. rewrite Hdots.
  rewrite !node_at_cons.
  rewrite (extends_frame names s s' name (cwd s)); [reflexivity | split; assumption | assumption].
Qed.

(** Opening a file for writing does not move what paths resolve to. *)
Lemma walk_insert_file t l x ps : forall cur l0,
  node_at t l <> Some Dir ->
  walk t cur ps = Return l0 -> walk (<[l := File x]> t) cur ps = Return l0.
Proof.
  induction ps as [|c ps IH]; intros cur l0 Hl Hw; cbn [walk] in *; [exact Hw|].
  destruct (node_at t cur) as [[|]|] eqn:Hn; try discriminate.
  assert (node_at (<[l := File x]> t) cur = Some Dir) as ->.
  { destruct cur as [|d cur]; [reflexivity|]. rewrite node_at_cons in *.
    rewrite lookup_insert_ne; [exact Hn|]. intros ->. apply Hl. exact Hn. }
  apply IH; assumption.
Qed.

(** What [open(p, 'w')], the writes and the close leave at [p]. *)
Lemma open_write_read p s l s1 content :
  open_w p s = (Return l, s1) ->
  read_text (write_handle l content s1) p = Return content.
Proof.
  unfold open_w. intros H.
  destruct (resolve s p) as [l'|] eqn:Hr; [|discriminate].
  assert (node_at (tree s) l' <> Some Dir
          /\ l = l' /\ s1 = {| tree := <[l' := File ""]> (tree s); cwd := cwd s |})
    as (Hnd & -> & ->).
  { destruct (node_at (tree s) l') as [[|]|];
      [| discriminate | destruct (names_entry p); [|discriminate]];
      inversion H; subst; repeat split; congruence. }
  clear H. unfold read_text, stat, resolve, write_handle in *. cbn [tree cwd].
  rewrite insert_insert_eq.
  rewrite (walk_insert_file _ _ _ _ _ _ Hnd Hr).
  destruct l' as [|c l']; [exfalso; apply Hnd; reflexivity|].
  rewrite node_at_cons, lookup_insert_eq. reflexivity.
Qed.

End FSFacts.

(** ** The runner *)

Section RunnerFacts.

Context {Globals : Type}.
Variable exec : string -> @Env Globals -> outcome * @Env Globals.
Variable clock : nat -> DateTime.datetime.

Lemma set_files_same (st : @RunState Globals) :
  set_env (set_files (files (env st)) (env st)) st = st.
Proof. destruct st as [[fs out tk g] h r]. reflexivity. Qed.

Lemma set_files_twice (st : @RunState Globals) s1 s2 :
  set_env (set_files s2 (env (set_env (set_files s1 (env st)) st)))
    (set_env (set_files s1 (env st)) st)
  = set_env (set_files s2 (env st)) st.
Proof. destruct st as [[fs out tk g] h r]. reflexivity. Qed.

(** *** The loop of [setup_environment] *)

Lemma make_dirs_spec ds : forall (st : @RunState Globals) r st',
  Forall (fun d => FS.absolute (FS.path_of d) = false) ds ->
  for_each ds (fun d => mkdir_p (FS.path_of d)) st = (r, st') ->
  exists s',
    st' = set_env (set_files s' (env st)) st
    /\ FS.extends (part_names ds) (files (env st)) s'
    /\ (FS.node_at (FS.tree (files (env st))) (FS.cwd (files (env st))) <> Some FS.Dir ->
        s' = files (env st))
    /\ (r = Return tt ->
        Forall (fun d => FS.is_dir s' (FS.path_of d) = true) ds)
    /\ (forall x, r = Raise x -> exists e, x = OSError e).
Proof.
  induction ds as [|d ds IH]; intros st r st' Hrel H.
  - inversion H; subst r st'. exists (files (env st)).
    rewrite set_files_same.
    repeat split; auto using FSFacts.extends_refl; discriminate.
  - inversion Hrel as [|? ? Hd Hds]; subst.
    cbn [for_each] in H. unfold bind, mkdir_p at 1 in H.
    destruct (FS.mkdir_p (FS.path_of d) (files (env st))) as [[[]|e] s1] eqn:Hmk.
    + pose proof (FSFacts.mkdir_p_extends _ _ _ _ Hmk) as [Hext1 Hdir1].
      assert (FS.node_at (FS.tree (files (env st))) (FS.cwd (files (env st)))
              <> Some FS.Dir -> s1 = files (env st)) as Hgone1.
      { intros Hcwd. unfold FS.mkdir_p in Hmk. rewrite Hd in Hmk.
        eapply FSFacts.mkdir_parents_no_cwd; eassumption. }
      apply IH in H as (s' & -> & Hext & Hgone & Hdirs & Hexn); [|assumption].
      exists s'. rewrite set_files_twice.
      assert (files (env (set_env (set_files s1 (env st)) st)) = s1) as Hs1
        by (destruct st as [[? ? ? ?] ? ?]; reflexivity).
      rewrite Hs1 in *.
      split; [reflexivity|]. split; [|split; [|split]].
      * eapply FSFacts.extends_trans.
        -- eapply FSFacts.extends_weaken; [|exact Hext1].
           unfold part_names. cbn [map concat]. intros x Hx.
           apply elem_of_app. left. exact Hx.
        -- eapply FSFacts.extends_weaken; [|exact Hext].
           unfold part_names. cbn [map concat]. intros x Hx.
           apply elem_of_app. right. exact Hx.
      * intros Hcwd. specialize (Hgone1 Hcwd). subst s1. auto.
      * intros Hr. constructor; [|auto].
        eapply FSFacts.is_dir_mono; [exact Hext | auto].
      * exact Hexn.
    + inversion H; subst. exists s1. split; [reflexivity|].
      pose proof (FSFacts.mkdir_p_extends _ _ _ _ Hmk) as [Hext1 _].
      split; [|split; [|split]].
      * eapply FSFacts.extends_weaken; [|exact Hext1].
        unfold part_names. cbn [map concat]. intros x Hx.
        apply elem_of_app. left. exact Hx.
      * intros Hcwd. unfold FS.mkdir_p in Hmk. rewrite Hd in Hmk.
        eapply FSFacts.mkdir_parents_no_cwd; eassumption.
      * discriminate.
      * intros x Hx. inversion Hx. eauto.
Qed.

Lemma make_dirs_existing ds : forall (st : @RunState Globals),
  Forall (fun d => FS.is_dir (files (env st)) (FS.path_of d) = true) ds ->
  for_each ds (fun d => mkdir_p (FS.path_of d)) st = (Return tt, st).
Proof.
  induction ds as [|d ds IH]; intros st Hdirs; [reflexivity|].
  inversion Hdirs as [|? ? Hd Hds]; subst.
  cbn [for_each]. unfold bind, mkdir_p at 1.
  rewrite (FSFacts.mkdir_p_existing _ _ Hd), set_files_same. auto.
Qed.

Lemma directories_relative :
  Forall (fun d => FS.absolute (FS.path_of d) = false) directories.
Proof. repeat constructor. Qed.

(** *** [setup_environment] *)

Lemma setup_environment_spec (st : @RunState Globals) r st' :
  setup_environment st = (r, st') ->
  exists s',
    FS.extends (part_names directories) (files (env st)) s'
    /\ (FS.node_at (FS.tree (files (env st))) (FS.cwd (files (env st))) <> Some FS.Dir ->
        s' = files (env st))
    /\ (forall x, r = Raise x ->
        (exists e, x = OSError e) /\ st' = set_env (set_files s' (env st)) st)
    /\ (r = Return tt ->
        Forall (fun d => FS.is_dir s' (FS.path_of d) = true) directories
        /\ st' = set_env (add_stdout ["✓ Directory structure created"]
                            (set_files s' (env st))) st).
Proof.
  unfold setup_environment, bind. intros H.
  destruct (for_each directories _ st) as [[[]|x] st1] eqn:Hloop;
    apply (make_dirs_spec _ _ _ _ directories_relative) in Hloop
      as (s' & -> & Hext & Hgone & Hdirs & Hexn);
    exists s'; (split; [exact Hext|]); (split; [exact Hgone|]).
  - unfold print in H. inversion H; subst r st'. split; [discriminate|].
    intros _. split; [auto|]. destruct st as [[? ? ? ?] ? ?]. reflexivity.
  - inversion H; subst r st'. split; [|discriminate].
    intros y Hy. inversion Hy; subst y. split; [eauto | reflexivity].
Qed.

(** C9: after a run of [setup_environment] that succeeded, a second run
    succeeds as well and leaves the file system as the first one left it;
    it only prints its line again. *)
Theorem setup_environment_idempotent (st st1 : @RunState Globals) :
  setup_environment st = (Return tt, st1) ->
  exists st2,
    setup_environment st1 = (Return tt, st2)
    /\ files (env st2) = files (env st1)
    /\ st2 = set_env (add_stdout ["✓ Directory structure created"] (env st1)) st1.
Proof.
  intros H1. apply setup_environment_spec in H1 as (s' & _ & _ & _ & Hok).
  destruct (Hok eq_refl) as [Hdirs ->]. clear Hok.
  eexists. split; [|split; [|reflexivity]].
  - unfold setup_environment, bind. rewrite make_dirs_existing; [reflexivity|].
    destruct st as [[? ? ? ?] ? ?]. exact Hdirs.
  - destruct st as [[? ? ? ?] ? ?]. reflexivity.
Qed.

(** *** [run_phase] *)

Lemma add_stdout_app (e : @Env Globals) l1 l2 :
  add_stdout l2 (add_stdout l1 e) = add_stdout (l1 ++ l2) e.
Proof. unfold add_stdout. simpl. rewrite <- app_assoc. reflexivity. Qed.

(** The four ways through [run_phase], by the outcome of the body and of
    the opening of the log. *)
Lemma run_phase_eq phase_name code (st : @RunState Globals) :
  run_phase exec clock phase_name code st =
  match exec code (entered phase_name (env st)) with
  | (Completed, e') =>
      (Return true,
       {| env := add_stdout
                   [PyStr.nl +:+ "✓ " +:+ phase_name +:+ " completed successfully"] e';
          history := history st ++ [(phase_name, code)];
          results := results st |})
  | (Raises x, e') =>
      if is_Exception x then
        let e1 := add_stdout
                    [PyStr.nl +:+ "✗ " +:+ phase_name +:+ " failed with error:";
                     format_exc x] e' in
        match FS.open_w (log_file phase_name) (files e1) with
        | (Return l, s1) =>
            (Return false,
             {| env := {| files := FS.write_handle l
                                     (log_content phase_name (clock (ticks e1)) x) s1;
                          stdout := stdout e1;
                          ticks := S (ticks e1);
                          globals := globals e1 |};
                history := history st ++ [(phase_name, code)];
                results := results st |})
        | (Raise err, s1) =>
            (Raise (OSError err),
             {| env := set_files s1 e1;
                history := history st ++ [(phase_name, code)];
                results := results st |})
        end
      else
        (Raise (Uncaught x),
         {| env := e';
            history := history st ++ [(phase_name, code)];
            results := results st |})
  end.
Proof.
  unfold run_phase, bind, print, exec_body, set_env. cbn [env history results].
  rewrite !add_stdout_app. unfold entered, banner. cbn [app].
  destruct (exec code _) as [[|x] e']; [reflexivity|].
  destruct (is_Exception x); [|reflexivity].
  cbn [env history results]. rewrite add_stdout_app. cbn [app].
  unfold open_w. cbn [env history results].
  destruct (FS.open_w _ _) as [[l|err] s1]; reflexivity.
Qed.

(** C4: a body that completes makes [run_phase] return [True], whatever
    it did; [run_phase] itself then touches no file, so the log of the
    phase is as the body left it. *)
Theorem run_phase_success phase_name code (st : @RunState Globals) env' :
  exec code (entered phase_name (env st)) = (Completed, env') ->
  exists st',
    run_phase exec clock phase_name code st = (Return true, st')
    /\ files (env st') = files env'
    /\ FS.stat (files (env st')) (log_file phase_name)
       = FS.stat (files env') (log_file phase_name)
    /\ stdout (env st')
       = stdout env' ++ [PyStr.nl +:+ "✓ " +:+ phase_name +:+ " completed successfully"]
    /\ history st' = history st ++ [(phase_name, code)]
    /\ results st' = results st.
Proof.
  intros Hexec. rewrite run_phase_eq, Hexec.
  eexists. split; [reflexivity|]. repeat split.
Qed.

Lemma format_exc_nonempty e : format_exc e <> EmptyString.
Proof. unfold format_exc. rewrite PyStrFacts.append_cons. discriminate. Qed.

Lemma log_content_parts phase_name ts e :
  PyStr.contains (log_content phase_name ts e) phase_name
  /\ PyStr.contains (log_content phase_name ts e) (DateTime.isoformat ts)
  /\ PyStr.contains (log_content phase_name ts e) (format_exc e).
Proof.
  unfold log_content. split; [|split].
  - exists "Error in ",
      (PyStr.nl +:+ ("Timestamp: " +:+ DateTime.isoformat ts +:+ PyStr.nl +:+ PyStr.nl)
       +:+ format_exc e).
    rewrite !PyStrFacts.append_assoc. reflexivity.
  - exists ("Error in " +:+ phase_name +:+ PyStr.nl +:+ "Timestamp: "),
      (PyStr.nl +:+ PyStr.nl +:+ format_exc e).
    rewrite !PyStrFacts.append_assoc. reflexivity.
  - rewrite <- PyStrFacts.append_assoc. apply PyStrFacts.contains_end.
Qed.

(** C3, as the code has it: when the body raises an exception that
    derives from [Exception] and the log file can be opened for writing
    in the state the body left, [run_phase] returns [False] and the log
    file holds the phase name, the time read after the failure and the
    trace. *)
Theorem run_phase_logs_failure phase_name code (st : @RunState Globals) e env' l s1 :
  exec code (entered phase_name (env st)) = (Raises e, env') ->
  is_Exception e = true ->
  FS.open_w (log_file phase_name) (files env') = (Return l, s1) ->
  exists st',
    run_phase exec clock phase_name code st = (Return false, st')
    /\ FS.read_text (files (env st')) (log_file phase_name)
       = Return (log_content phase_name (clock (ticks env')) e)
    /\ PyStr.contains (log_content phase_name (clock (ticks env')) e) phase_name
    /\ PyStr.contains (log_content phase_name (clock (ticks env')) e)
         (DateTime.isoformat (clock (ticks env')))
    /\ DateTime.iso8601_shape (DateTime.isoformat (clock (ticks env'))) = true
    /\ PyStr.contains (log_content phase_name (clock (ticks env')) e) (format_exc e)
    /\ format_exc e <> EmptyString
    /\ history st' = history st ++ [(phase_name, code)]
    /\ results st' = results st.
Proof.
  intros Hexec Hexc Hopen. rewrite run_phase_eq, Hexec, Hexc.
  cbn zeta. cbn [files add_stdout ticks]. rewrite Hopen.
  destruct (log_content_parts phase_name (clock (ticks env')) e) as (Hn & Ht & Hf).
  eexists. split; [reflexivity|]. cbn [env files history results].
  split; [eapply FSFacts.open_write_read; exact Hopen|].
  auto 10 using DateTimeFacts.isoformat_shape, format_exc_nonempty.
Qed.

(** When the log cannot be opened, the error of [open] leaves [run_phase]. *)
Lemma run_phase_log_unwritable phase_name code (st : @RunState Globals) e env' err s1 :
  exec code (entered phase_name (env st)) = (Raises e, env') ->
  is_Exception e = true ->
  FS.open_w (log_file phase_name) (files env') = (Raise err, s1) ->
  exists st', run_phase exec clock phase_name code st = (Raise (OSError err), st').
Proof.
  intros Hexec Hexc Hopen. rewrite run_phase_eq, Hexec, Hexc.
  cbn zeta. cbn [files add_stdout]. rewrite Hopen. eauto.
Qed.

(** An exception that does not derive from [Exception] leaves [run_phase]
    too, and nothing is logged. *)
Lemma run_phase_uncaught phase_name code (st : @RunState Globals) e env' :
  exec code (entered phase_name (env st)) = (Raises e, env') ->
  is_Exception e = false ->
  exists st',
    run_phase exec clock phase_name code st = (Raise (Uncaught e), st')
    /\ files (env st') = files env'.
Proof.
  intros Hexec Hexc. rewrite run_phase_eq, Hexec, Hexc. eauto.
Qed.

(** *** The blocks of [main] *)

Lemma run_phase_frame phase_name code (st : @RunState Globals) r st' :
  run_phase exec clock phase_name code st = (r, st') ->
  history st' = history st ++ [(phase_name, code)] /\ results st' = results st.
Proof.
  rewrite run_phase_eq.
  destruct (exec code _) as [[|x] e']; [intros H; inversion H; auto|].
  destruct (is_Exception x); [|intros H; inversion H; auto].
  cbn zeta. destruct (FS.open_w _ _) as [[l|err] s1]; intros H; inversion H; auto.
Qed.

Lemma startup_spec (st : @RunState Globals) r st' :
  startup clock st = (r, st') ->
  history st' = history st
  /\ FS.extends (part_names directories) (files (env st)) (files (env st'))
  /\ (FS.node_at (FS.tree (files (env st))) (FS.cwd (files (env st))) <> Some FS.Dir ->
      files (env st') = files (env st))
  /\ (forall x, r = Raise x -> (exists e, x = OSError e) /\ results st' = results st)
  /\ (r = Return tt -> exists ts, results st' = Some {| timestamp := ts; phases := [] |}).
Proof.
  unfold startup, bind, print. cbv beta iota.
  match goal with
  | |- context [setup_environment ?s0] =>
      remember s0 as st0 eqn:Hst0;
      destruct (setup_environment st0) as [[[]|x] st1] eqn:Hsetup
  end;
    apply setup_environment_spec in Hsetup as (s' & Hext & Hgone & Hraise & Hok);
    assert (files (env st0) = files (env st)
            /\ history st0 = history st /\ results st0 = results st)
      as (Hf0 & Hh0 & Hr0)
      by (subst st0; destruct st as [[? ? ? ?] ? ?]; repeat split);
    rewrite Hf0 in *.
  - destruct (Hok eq_refl) as [_ ->]. unfold now, set_results. cbv beta iota.
    intros [= <- <-]. cbn [env history results files set_env
      set_files add_stdout]. rewrite Hh0.
    split; [reflexivity|]. split; [exact Hext|]. split; [exact Hgone|].
    split; [discriminate | eauto].
  - destruct (Hraise x eq_refl) as [Hx ->].
    intros [= <- <-]. cbn [env history results files set_env
      set_files]. rewrite Hh0, Hr0.
    split; [reflexivity|]. split; [exact Hext|]. split; [exact Hgone|].
    split; [|discriminate].
    intros y Hy; inversion Hy; subst; split; [exact Hx | reflexivity].
Qed.

Lemma scraping_unreadable (st : @RunState Globals) err :
  FS.read_text (files (env st)) SOURCE = Raise err ->
  scraping exec clock st = (Raise (OSError err), st).
Proof. intros H. unfold scraping, bind, read_text. rewrite H. reflexivity. Qed.

(** A run of the block that returns did read the source and did run
    phase 1, whose answer it recorded. *)
Lemma scraping_returns (st : @RunState Globals) st' :
  scraping exec clock st = (Return tt, st') ->
  exists text ok st1,
    FS.read_text (files (env st)) SOURCE = Return text
    /\ run_phase exec clock "Data Scraping" (scraper_section text) st = (Return ok, st1)
    /\ results st'
       = record_phase "data_scraping" (if ok : bool then "success" else "failed")
           <$> results st1
    /\ history st' = history st1
    /\ files (env st') = files (env st1).
Proof.
  unfold scraping, bind at 1, read_text.
  destruct (FS.read_text (files (env st)) SOURCE) as [text|err]; [|discriminate].
  unfold bind at 1.
  destruct (run_phase exec clock "Data Scraping" (scraper_section text) st)
    as [[ok|x] st1] eqn:Hrun; [|discriminate].
  intros H. exists text, ok, st1. split; [reflexivity|]. split; [exact Hrun|].
  unfold bind, path_exists, glob_csv, set_phase, print, ret in H.
  destruct ok; cbv beta iota in H; cbn [env history results set_env] in H;
    destruct (FS.exists_ _ RAW_DIR); cbv beta iota in H;
    try destruct (FS.glob_csv _ RAW_DIR); inversion H; subst st';
    repeat split.
Qed.

Lemma eda_gate_eq (st : @RunState Globals) :
  exists out,
    eda_gate st
    = (Return tt,
       {| env := add_stdout [out] (env st);
          history := history st;
          results := record_phase "eda" (eda_label (files (env st))) <$> results st |}).
Proof.
  unfold eda_gate, bind, path_exists, print, set_phase, eda_label, FS.exists_.
  cbv beta iota.
  destruct (FS.stat (files (env st)) KEPLER); cbv beta iota;
    eexists; reflexivity.
Qed.

Lemma add_stdout_nil (e : @Env Globals) : add_stdout [] e = e.
Proof. destruct e. unfold add_stdout. simpl. rewrite app_nil_r. reflexivity. Qed.

Lemma print_each {A} (f : A -> string) xs : forall st : @RunState Globals,
  for_each xs (fun x => print (f x)) st
  = (Return tt, set_env (add_stdout (map f xs) (env st)) st).
Proof.
  induction xs as [|x xs IH]; intros st.
  - cbn [for_each map]. unfold ret. rewrite add_stdout_nil.
    destruct st; reflexivity.
  - cbn [for_each map]. unfold bind, print at 1. rewrite IH.
    destruct st as [e h r]. cbn [env set_env]. rewrite add_stdout_app. reflexivity.
Qed.

Lemma finish_eq (st : @RunState Globals) :
  finish st =
  match FS.open_w SUMMARY (files (env st)) with
  | (Return l, s1) =>
      (Return tt,
       {| env := {| files := match results st with
                             | Some r => FS.write_handle l (json_dump r) s1
                             | None => s1
                             end;
                    stdout := stdout (env st) ++ completion_report (phases_of st);
                    ticks := ticks (env st);
                    globals := globals (env st) |};
          history := history st;
          results := results st |})
  | (Raise err, s1) => (Raise (OSError err), set_env (set_files s1 (env st)) st)
  end.
Proof.
  destruct st as [[fs out tk g] h r0]. unfold finish.
  set (body := fun kv : string * string => @print Globals (summary_line kv)).
  unfold bind, open_w. cbn [env files].
  destruct (FS.open_w SUMMARY fs) as [[l|err] s1] eqn:Hopen; [|reflexivity].
  unfold dump_results, write_handle, print, get_phases, phases_of, set_env,
    set_files, add_stdout.
  cbn [env files stdout ticks globals history results].
  destruct r0 as [r|]; cbn [env files stdout ticks globals history results
                            from_option];
    subst body; rewrite print_each;
    unfold completion_report, phases_of, set_env, add_stdout;
    cbn [env files stdout ticks globals history results from_option];
    rewrite <- !app_assoc; reflexivity.
Qed.

Lemma finish_returns (st : @RunState Globals) st' :
  finish st = (Return tt, st') ->
  exists l s1,
    FS.open_w SUMMARY (files (env st)) = (Return l, s1)
    /\ results st' = results st
    /\ history st' = history st
    /\ stdout (env st') = stdout (env st) ++ completion_report (phases_of st)
    /\ (forall r, results st = Some r ->
        files (env st') = FS.write_handle l (json_dump r) s1).
Proof.
  rewrite finish_eq.
  destruct (FS.open_w SUMMARY (files (env st))) as [[l|err] s1]; [|discriminate].
  intros [= <-]. exists l, s1. cbn [env history results stdout files].
  repeat split. intros r ->. reflexivity.
Qed.

(** Once the source is read and phase 1 has answered, the block goes
    through, whatever the answer. *)
Lemma scraping_forward (st : @RunState Globals) text ok stp :
  FS.read_text (files (env st)) SOURCE = Return text ->
  run_phase exec clock "Data Scraping" (scraper_section text) st = (Return ok, stp) ->
  exists out,
    scraping exec clock st
    = (Return tt,
       {| env := add_stdout out (env stp);
          history := history stp;
          results :=
            record_phase "data_scraping" (if ok : bool then "success" else "failed")
              <$> results stp |}).
Proof.
  intros Hread Hrun. unfold scraping, bind at 1, read_text. rewrite Hread.
  unfold bind at 1. rewrite Hrun.
  destruct stp as [[fs out0 tk g] h r0].
  unfold bind, path_exists, glob_csv, set_phase, print, ret, set_env, add_stdout.
  destruct ok; cbn [env files stdout ticks globals history results];
    destruct (FS.exists_ fs RAW_DIR);
    cbn [env files stdout ticks globals history results];
    try destruct (FS.glob_csv fs RAW_DIR);
    cbn [env files stdout ticks globals history results];
    rewrite <- ?app_assoc;
    first [ eexists; reflexivity
          | exists []; rewrite app_nil_r; reflexivity ].
Qed.

(** *** [main] *)

Lemma SOURCE_eq : SOURCE = {| FS.absolute := false; FS.parts := ["copy_of_ada.py"] |}.
Proof. reflexivity. Qed.

Lemma SUMMARY_eq : SUMMARY = {| FS.absolute := false; FS.parts := ["pipeline_results.json"] |}.
Proof. reflexivity. Qed.

Lemma source_name_fresh : "copy_of_ada.py" ∉ part_names directories.
Proof.
  intros H. apply list_elem_of_In in H. vm_compute in H. intuition discriminate.
Qed.

Lemma summary_name_fresh : "pipeline_results.json" ∉ part_names directories.
Proof.
  intros H. apply list_elem_of_In in H. vm_compute in H. intuition discriminate.
Qed.

(** The directories of [setup_environment] leave the source and the
    summary as they are. *)
Lemma startup_keeps_files (st : @RunState Globals) r st' :
  startup clock st = (r, st') ->
  FS.stat (files (env st')) SOURCE = FS.stat (files (env st)) SOURCE
  /\ FS.stat (files (env st')) SUMMARY = FS.stat (files (env st)) SUMMARY.
Proof.
  intros H. apply startup_spec in H as (_ & Hext & Hgone & _).
  rewrite SOURCE_eq, SUMMARY_eq.
  split; eapply FSFacts.stat_name_frame;
    eauto using source_name_fresh, summary_name_fresh.
Qed.

Lemma read_text_by_stat s s' p :
  FS.stat s' p = FS.stat s p -> FS.read_text s' p = FS.read_text s p.
Proof. unfold FS.read_text. intros ->. reflexivity. Qed.

(** What a run of [main] that returns went through. *)
Lemma main_returns (e : @Env Globals) st' :
  main exec clock (initial e) = (Return tt, st') ->
  exists ts text ok st0 stp st1 l s1,
    startup clock (initial e) = (Return tt, st0)
    /\ FS.read_text (files (env st0)) SOURCE = Return text
    /\ run_phase exec clock "Data Scraping" (scraper_section text) st0
       = (Return ok, stp)
    /\ scraping exec clock st0 = (Return tt, st1)
    /\ files (env st1) = files (env stp)
    /\ results st1
       = Some {| timestamp := ts;
                 phases := [("data_scraping", if ok : bool then "success" else "failed")] |}
    /\ history st1 = [("Data Scraping", scraper_section text)]
    /\ FS.open_w SUMMARY (files (env st1)) = (Return l, s1)
    /\ results st'
       = Some {| timestamp := ts;
                 phases := [("data_scraping", if ok : bool then "success" else "failed");
                            ("eda", eda_label (files (env st1)))] |}
    /\ history st' = [("Data Scraping", scraper_section text)]
    /\ (exists out,
          stdout (env st')
          = out ++ completion_report
                     [("data_scraping", if ok : bool then "success" else "failed");
                      ("eda", eda_label (files (env st1)))])
    /\ files (env st')
       = FS.write_handle l
           (json_dump
              {| timestamp := ts;
                 phases := [("data_scraping", if ok : bool then "success" else "failed");
                            ("eda", eda_label (files (env st1)))] |}) s1.
Proof.
  unfold main, bind at 1.
  destruct (startup clock (initial e)) as [[[]|x0] st0] eqn:Hstart; [|discriminate].
  unfold bind at 1.
  destruct (scraping exec clock st0) as [[[]|x1] st1] eqn:Hscr; [|discriminate].
  unfold bind at 1.
  destruct (eda_gate_eq st1) as [out Hgate]. rewrite Hgate.
  intros Hfin.
  apply startup_spec in Hstart as Hs. destruct Hs as (Hh0 & _ & _ & _ & Hres0).
  destruct (Hres0 eq_refl) as [ts Hr0]. clear Hres0.
  apply scraping_returns in Hscr as Hsc.
  destruct Hsc as (text & ok & stp & Hread & Hrun & Hr1 & Hh1 & Hf1).
  apply run_phase_frame in Hrun as Hp. destruct Hp as [Hhp Hrp].
  rewrite Hrp, Hr0 in Hr1. rewrite Hhp, Hh0 in Hh1.
  change (results st1
          = Some {| timestamp := ts;
                    phases := [("data_scraping",
                                if ok : bool then "success" else "failed")] |})
    in Hr1.
  change (history st1 = [("Data Scraping", scraper_section text)]) in Hh1.
  apply finish_returns in Hfin as (l & s1 & Hopen & Hr' & Hh' & Hout & Hfiles).
  unfold phases_of in Hout.
  cbn [env history results files stdout add_stdout] in Hopen, Hr', Hh', Hout, Hfiles.
  rewrite Hr1 in Hr', Hout, Hfiles.
  change (record_phase "eda" (eda_label (files (env st1)))
            <$> Some {| timestamp := ts;
                        phases := [("data_scraping",
                                    if ok : bool then "success" else "failed")] |})
    with (Some {| timestamp := ts;
                  phases := [("data_scraping",
                              if ok : bool then "success" else "failed");
                             ("eda", eda_label (files (env st1)))] |})
    in Hr', Hout, Hfiles.
  cbn [from_option phases] in Hout.
  exists ts, text, ok, st0, stp, st1, l, s1.
  split; [reflexivity|]. split; [exact Hread|]. split; [exact Hrun|].
  split; [exact Hscr|]. split; [exact Hf1|]. split; [exact Hr1|].
  split; [exact Hh1|]. split; [exact Hopen|]. split; [exact Hr'|].
  split; [congruence|]. split.
  - eexists. exact Hout.
  - apply Hfiles. reflexivity.
Qed.

Lemma scraping_phase_raises (st : @RunState Globals) text x stp :
  FS.read_text (files (env st)) SOURCE = Return text ->
  run_phase exec clock "Data Scraping" (scraper_section text) st = (Raise x, stp) ->
  scraping exec clock st = (Raise x, stp).
Proof.
  intros Hread Hrun. unfold scraping, bind at 1, read_text. rewrite Hread.
  unfold bind at 1. rewrite Hrun. reflexivity.
Qed.

(** Whatever the slice of the source is, phase 1 is run on it, and it is
    the only phase that is run. *)
Lemma main_runs_slice (e : @Env Globals) st0 text r st' :
  startup clock (initial e) = (Return tt, st0) ->
  FS.read_text (files (env st0)) SOURCE = Return text ->
  main exec clock (initial e) = (r, st') ->
  history st' = [("Data Scraping", scraper_section text)].
Proof.
  intros Hstart Hread. unfold main, bind at 1. rewrite Hstart.
  apply startup_spec in Hstart as (Hh0 & _).
  unfold bind at 1.
  destruct (run_phase exec clock "Data Scraping" (scraper_section text) st0)
    as [[ok|x] stp] eqn:Hrun;
    pose proof (run_phase_frame _ _ _ _ _ Hrun) as [Hhp _];
    rewrite Hh0 in Hhp; cbn [initial history app] in Hhp.
  - destruct (scraping_forward _ _ _ _ Hread Hrun) as [out1 ->].
    unfold bind at 1.
    match goal with
    | |- context [eda_gate ?s] => destruct (eda_gate_eq s) as [out2 ->]
    end.
    rewrite finish_eq. cbn [env history results files].
    cbn [add_stdout files].
    destruct (FS.open_w SUMMARY (files (env stp))) as [[l|err] s1];
      intros [= <- <-]; exact Hhp.
  - rewrite (scraping_phase_raises _ _ _ _ Hread Hrun).
    intros [= <- <-]. exact Hhp.
Qed.

(** C1, as the code has it: the slice cannot fail. With a missing or
    misordered marker it is the empty string, except when only the end
    marker is missing: then it is the text from the start marker up to,
    but not including, the last character. And [main] runs phase 1 on the
    slice of the source it has read, whatever the markers. *)
Theorem bad_markers_yield_body (text s e : string) :
  markers_bad text s e ->
  extract text s e =
    (if (0 <=? PyStr.find text s) && (PyStr.find text e =? -1)
     then String.substring (Z.to_nat (PyStr.find text s))
            (String.length text - 1 - Z.to_nat (PyStr.find text s)) text
     else EmptyString)
  /\ forall (e0 : @Env Globals) st0 r st',
       startup clock (initial e0) = (Return tt, st0) ->
       FS.read_text (files (env st0)) SOURCE = Return text ->
       main exec clock (initial e0) = (r, st') ->
       history st' = [("Data Scraping", scraper_section text)].
Proof.
  intros Hbad. split; [apply extract_when_markers_bad; exact Hbad|].
  intros e0 st0 r st'. apply main_runs_slice.
Qed.

(** C5: when a run reaches the gate of phase 2, the entry [eda] is
    decided by whether [data/raw/kepler_cumulative.csv] is there, whatever
    it is or holds; the gate calls no phase and touches no file. *)
Theorem eda_gate_checks_presence (e : @Env Globals) st0 st1 :
  startup clock (initial e) = (Return tt, st0) ->
  scraping exec clock st0 = (Return tt, st1) ->
  exists st2 ts first code,
    eda_gate st1 = (Return tt, st2)
    /\ results st1 = Some {| timestamp := ts; phases := [first] |}
    /\ fst first = "data_scraping"
    /\ results st2
       = Some {| timestamp := ts;
                 phases :=
                   [first;
                    ("eda",
                     match FS.stat (files (env st1)) KEPLER with
                     | Return _ => "skipped - requires manual review"
                     | Raise _ => "skipped - no data"
                     end)] |}
    /\ history st1 = [("Data Scraping", code)]
    /\ history st2 = history st1
    /\ files (env st2) = files (env st1)
    /\ globals (env st2) = globals (env st1)
    /\ ticks (env st2) = ticks (env st1).
Proof.
  intros Hstart Hscr.
  apply startup_spec in Hstart as (Hh0 & _ & _ & _ & Hres0).
  destruct (Hres0 eq_refl) as [ts Hr0]. clear Hres0.
  apply scraping_returns in Hscr
    as (text & ok & stp & Hread & Hrun & Hr1 & Hh1 & Hf1).
  apply run_phase_frame in Hrun as [Hhp Hrp].
  rewrite Hrp, Hr0 in Hr1. rewrite Hhp, Hh0 in Hh1.
  destruct (eda_gate_eq st1) as [out Hgate].
  eexists. exists ts, ("data_scraping", if ok : bool then "success" else "failed"),
    (scraper_section text).
  split; [exact Hgate|]. cbn [env history results files globals ticks add_stdout].
  split; [exact Hr1|]. split; [reflexivity|]. rewrite Hr1.
  split; [reflexivity|]. split; [exact Hh1|]. repeat split.
Qed.

(** C6: when the source cannot be opened, [main] ends with an [OSError]
    (the one of [open], if the directories could be made), no phase was
    run or recorded, and what [pipeline_results.json] denotes is as it
    was before the run. *)
Theorem main_source_unreadable (e : @Env Globals) err :
  FS.read_text (files e) SOURCE = Raise err ->
  exists x st',
    main exec clock (initial e) = (Raise (OSError x), st')
    /\ (forall st0, startup clock (initial e) = (Return tt, st0) -> x = err)
    /\ phases_of st' = []
    /\ history st' = []
    /\ FS.stat (files (env st')) SUMMARY = FS.stat (files e) SUMMARY.
Proof.
  intros Hread. unfold main, bind at 1.
  destruct (startup clock (initial e)) as [[[]|x0] st0] eqn:Hstart.
  - pose proof (startup_keeps_files _ _ _ Hstart) as [Hsrc Hsum].
    apply startup_spec in Hstart as (Hh0 & _ & _ & _ & Hres0).
    destruct (Hres0 eq_refl) as [ts Hr0].
    unfold bind at 1. rewrite (scraping_unreadable st0 err).
    + exists err, st0. split; [reflexivity|]. split; [reflexivity|].
      unfold phases_of. rewrite Hr0. repeat split; assumption.
    + rewrite (read_text_by_stat _ _ _ Hsrc). exact Hread.
  - pose proof (startup_keeps_files _ _ _ Hstart) as [_ Hsum].
    apply startup_spec in Hstart as (Hh0 & _ & _ & Hraise & _).
    destruct (Hraise x0 eq_refl) as [[x ->] Hr0].
    exists x, st0. split; [reflexivity|]. split; [discriminate|].
    unfold phases_of. rewrite Hr0. repeat split; assumption.
Qed.

(** C7: a run of [main] that returns has run phase 1 once, recorded it as
    [success] or [failed] by the answer of [run_phase], recorded phase 2
    as skipped without running it, and holds these two entries, in this
    order, and no other. *)
Theorem main_phase_map (e : @Env Globals) st' :
  main exec clock (initial e) = (Return tt, st') ->
  exists ts code s1 s2 ok st0 stp,
    results st'
    = Some {| timestamp := ts; phases := [("data_scraping", s1); ("eda", s2)] |}
    /\ startup clock (initial e) = (Return tt, st0)
    /\ run_phase exec clock "Data Scraping" code st0 = (Return ok, stp)
    /\ s1 = (if ok : bool then "success" else "failed")
    /\ (s1 = "success" \/ s1 = "failed")
    /\ (s2 = "skipped - no data" \/ s2 = "skipped - requires manual review")
    /\ history st' = [("Data Scraping", code)]
    /\ PyDict.keys (phases_of st') = ["data_scraping"; "eda"]
    /\ NoDup (PyDict.keys (phases_of st')).
Proof.
  intros H. apply main_returns in H
    as (ts & text & ok & st0 & stp & st1 & l & s1 & Hstart & _ & Hrun & _ & _ & _
        & _ & _ & Hr' & Hh' & _ & _).
  exists ts, (scraper_section text),
    (if ok then "success" else "failed"), (eda_label (files (env st1))),
    ok, st0, stp.
  split; [exact Hr'|]. split; [exact Hstart|]. split; [exact Hrun|].
  split; [reflexivity|].
  split; [destruct ok; auto|].
  split; [unfold eda_label; destruct (FS.stat _ KEPLER); auto|].
  split; [exact Hh'|].
  unfold phases_of. rewrite Hr'. cbn [from_option phases PyDict.keys map fst].
  split; [reflexivity|].
  apply NoDup_cons. split; [|apply NoDup_singleton].
  intros Hin. apply list_elem_of_singleton in Hin. discriminate.
Qed.

(** C8: when nothing fails outside the phase (the directories are made,
    the source is read, [run_phase] returns, the summary can be opened),
    [main] returns, whether the phase failed or not: it has written the
    summary, and the last thing it printed is the completion report. *)
Theorem main_completes_despite_failures (e : @Env Globals) st0 text ok stp l s1 :
  startup clock (initial e) = (Return tt, st0) ->
  FS.read_text (files (env st0)) SOURCE = Return text ->
  run_phase exec clock "Data Scraping" (scraper_section text) st0 = (Return ok, stp) ->
  FS.open_w SUMMARY (files (env stp)) = (Return l, s1) ->
  exists st' out r,
    main exec clock (initial e) = (Return tt, st')
    /\ results st' = Some r
    /\ PyDict.get "data_scraping" (phases r)
       = Some (if ok : bool then "success" else "failed")
    /\ stdout (env st') = out ++ completion_report (phases r)
    /\ FS.read_text (files (env st')) SUMMARY = Return (json_dump r).
Proof.
  intros Hstart Hread Hrun Hopen.
  destruct (scraping_forward _ _ _ _ Hread Hrun) as [out1 Hscr].
  apply startup_spec in Hstart as Hs. destruct Hs as (_ & _ & _ & _ & Hres0).
  destruct (Hres0 eq_refl) as [ts Hr0]. clear Hres0.
  apply run_phase_frame in Hrun as Hp. destruct Hp as [_ Hrp].
  unfold main, bind at 1. rewrite Hstart.
  unfold bind at 1. rewrite Hscr.
  unfold bind at 1.
  match goal with |- context [eda_gate ?s] => destruct (eda_gate_eq s) as [out2 ->] end.
  rewrite finish_eq.
  cbn [env history results files stdout add_stdout].
  rewrite Hopen, Hrp, Hr0.
  eexists. eexists. eexists. split; [reflexivity|].
  cbn [env history results files stdout fmap option_fmap option_map].
  split; [reflexivity|].
  split; [reflexivity|].
  split; [unfold phases_of; cbn [results from_option]; reflexivity|].
  eapply FSFacts.open_write_read. exact Hopen.
Qed.

(** C10: when the slice of the source is empty and the interpreter
    completes on the empty body, a run of [main] that returns went like
    this: after the startup, [run_phase] ran the empty body, printed its
    line of success, returned [True] and wrote no log (the environment is
    the one the body left, with that line added); and [main] recorded
    [data_scraping] as [success]. *)
Theorem empty_section_recorded_as_success (e : @Env Globals) text st' :
  (forall e0, fst (exec EmptyString e0) = Completed) ->
  FS.read_text (files e) SOURCE = Return text ->
  scraper_section text = EmptyString ->
  main exec clock (initial e) = (Return tt, st') ->
  exists ts s2 st0 stp env',
    startup clock (initial e) = (Return tt, st0)
    /\ exec EmptyString (entered "Data Scraping" (env st0)) = (Completed, env')
    /\ run_phase exec clock "Data Scraping" EmptyString st0 = (Return true, stp)
    /\ env stp
       = add_stdout
           [PyStr.nl +:+ "✓ " +:+ "Data Scraping" +:+ " completed successfully"] env'
    /\ history stp = [("Data Scraping", EmptyString)]
    /\ results st'
       = Some {| timestamp := ts;
                 phases := [("data_scraping", "success"); ("eda", s2)] |}
    /\ PyDict.get "data_scraping" (phases_of st') = Some "success"
    /\ history st' = [("Data Scraping", EmptyString)].
Proof.
  intros Hempty Hread0 Hslice H. apply main_returns in H
    as (ts & text' & ok & st0 & stp & st1 & l & s1 & Hstart & Hread & Hrun & _
        & _ & _ & _ & _ & Hr' & Hh' & _ & _).
  pose proof (startup_keeps_files _ _ _ Hstart) as [Hsrc _].
  rewrite (read_text_by_stat _ _ _ Hsrc) in Hread. cbn [initial env] in Hread.
  rewrite Hread0 in Hread. injection Hread as <-.
  rewrite Hslice in *.
  apply startup_spec in Hstart as Hs. destruct Hs as (Hh0 & _).
  cbn [initial history] in Hh0.
  specialize (Hempty (entered "Data Scraping" (env st0))).
  destruct (exec EmptyString (entered "Data Scraping" (env st0)))
    as [o env'] eqn:Hexec.
  cbn [fst] in Hempty. subst o.
  rewrite run_phase_eq, Hexec in Hrun. injection Hrun as <- <-.
  exists ts, (eda_label (files (env st1))), st0.
  eexists. exists env'.
  split; [exact Hstart|]. split; [exact Hexec|].
  split; [rewrite run_phase_eq, Hexec; reflexivity|].
  cbn [env history]. rewrite Hh0.
  split; [reflexivity|]. split; [reflexivity|]. split; [exact Hr'|].
  split; [unfold phases_of; rewrite Hr'; reflexivity | exact Hh'].
Qed.

End RunnerFacts.

(** *** Concrete runs of [setup_environment] and [run_phase] *)

Lemma setup_environment_idempotent_witness :
  setup_environment (initial (Demo.env_of Demo.empty_tree))
  = (Return tt, Demo.after_setup)
  /\ exists st2 : @RunState unit,
       setup_environment Demo.after_setup = (Return tt, st2)
       /\ files (env st2) = files (env Demo.after_setup).
Proof.
  assert (setup_environment (initial (Demo.env_of Demo.empty_tree))
          = (Return tt, Demo.after_setup)) as Hfirst
    by (vm_compute; reflexivity).
  split; [exact Hfirst|].
  destruct (setup_environment_idempotent _ _ Hfirst) as (st2 & Hrun & Hfiles & _).
  exists st2. split; [exact Hrun | exact Hfiles].
Defined.

Lemma run_phase_success_witness :
  exists st',
    run_phase Demo.toy_exec Demo.toy_clock "Data Scraping" "print('ok')"
      (initial (Demo.env_of Demo.logs_tree)) = (Return true, st')
    /\ files (env st') = files (Demo.env_of Demo.logs_tree).
Proof.
  destruct (run_phase_success Demo.toy_exec Demo.toy_clock
              "Data Scraping" "print('ok')"
              (initial (Demo.env_of Demo.logs_tree))
              (entered "Data Scraping" (Demo.env_of Demo.logs_tree)))
    as (st' & Hrun & Hfiles & _).
  - vm_compute. reflexivity.
  - exists st'. split; [exact Hrun | exact Hfiles].
Defined.

Lemma run_phase_logs_failure_witness :
  exists st',
    run_phase Demo.toy_exec Demo.toy_clock "Data Scraping" Demo.raising_body
      (initial (Demo.env_of Demo.logs_tree)) = (Return false, st')
    /\ FS.read_text (files (env st')) (log_file "Data Scraping")
       = Return (log_content "Data Scraping" (Demo.toy_clock 0) Demo.RuntimeError).
Proof.
  destruct (run_phase_logs_failure Demo.toy_exec Demo.toy_clock
              "Data Scraping" Demo.raising_body
              (initial (Demo.env_of Demo.logs_tree))
              Demo.RuntimeError
              (entered "Data Scraping" (Demo.env_of Demo.logs_tree))
              ("data_scraping_error.log" :: "logs" :: Demo.home)
              (snd (FS.open_w (log_file "Data Scraping")
                      (files (Demo.env_of Demo.logs_tree)))))
    as (st' & Hrun & Hlog & _).
  - vm_compute. reflexivity.
  - reflexivity.
  - vm_compute. reflexivity.
  - exists st'. split; [exact Hrun | exact Hlog].
Defined.

(** C3, as stated, fails where the log cannot be written: in a directory
    without [logs/], the [FileNotFoundError] of [open] leaves [run_phase]. *)
Lemma failure_always_logged_counterexample :
  ~ failure_always_logged Demo.toy_exec Demo.toy_clock.
Proof.
  intros Hclaim.
  destruct (Hclaim "Data Scraping" Demo.raising_body
              (initial (Demo.env_of Demo.empty_tree))
              Demo.RuntimeError
              (entered "Data Scraping" (Demo.env_of Demo.empty_tree)))
    as (st' & Hrun & _); [vm_compute; reflexivity | reflexivity |].
  vm_compute in Hrun. discriminate Hrun.
Qed.

(** The same happens with [logs/] in place when the phase name holds a
    slash: the log would lie in a directory that nobody made. *)
Example run_phase_slash_in_name :
  fst (run_phase Demo.toy_exec Demo.toy_clock "Data I/O" Demo.raising_body
         (initial (Demo.env_of Demo.logs_tree)))
  = Raise (OSError FS.ENOENT).
Proof. vm_compute. reflexivity. Qed.

(** A body that ends the interpreter is not caught. *)
Example run_phase_sys_exit :
  fst (run_phase Demo.toy_exec Demo.toy_clock "Data Scraping" "sys.exit(1)"
         (initial (Demo.env_of Demo.logs_tree)))
  = Raise (Uncaught Demo.SystemExit).
Proof. vm_compute. reflexivity. Qed.

(** *** Concrete runs of [main] *)

Lemma eda_gate_checks_presence_witness :
  exists st2,
    eda_gate Demo.raising_scraped = (Return tt, st2)
    /\ PyDict.get "eda" (phases_of st2) = Some "skipped - no data"
    /\ history st2 = [("Data Scraping", scraper_section Demo.src_raising)].
Proof.
  destruct (eda_gate_checks_presence Demo.toy_exec Demo.toy_clock
              (Demo.env_with Demo.src_raising)
              Demo.raising_started Demo.raising_scraped)
    as (st2 & ts & first & code & Hgate & Hr1 & _ & Hr2 & Hh1 & Hh2 & _);
    [vm_compute; reflexivity | vm_compute; reflexivity |].
  exists st2. split; [exact Hgate|]. split.
  - unfold phases_of. rewrite Hr2.
    injection Hr1 as _ <-. vm_compute. reflexivity.
  - rewrite Hh2. vm_compute. reflexivity.
Defined.

(** Scenario C: the file is there, and what it holds does not matter. *)
Example eda_gate_kepler_present :
  PyDict.get "eda"
    (phases_of
       (snd (main Demo.toy_exec Demo.toy_clock
               (initial (Demo.env_with_kepler Demo.src_raising "not,a,table")))))
  = Some "skipped - requires manual review".
Proof. vm_compute. reflexivity. Qed.

Lemma main_source_unreadable_witness :
  exists x st',
    main Demo.toy_exec Demo.toy_clock (initial (Demo.env_of Demo.empty_tree))
    = (Raise (OSError x), st')
    /\ phases_of st' = []
    /\ history st' = []
    /\ FS.stat (files (env st')) SUMMARY = Raise FS.ENOENT.
Proof.
  destruct (main_source_unreadable Demo.toy_exec Demo.toy_clock
              (Demo.env_of Demo.empty_tree) FS.ENOENT)
    as (x & st' & Hmain & _ & Hphases & Hhist & Hsum);
    [vm_compute; reflexivity|].
  exists x, st'. split; [exact Hmain|]. split; [exact Hphases|].
  split; [exact Hhist|]. rewrite Hsum. vm_compute. reflexivity.
Defined.

Lemma main_phase_map_witness :
  main Demo.toy_exec Demo.toy_clock (initial (Demo.env_with Demo.src_raising))
  = (Return tt, Demo.raising_final)
  /\ PyDict.keys (phases_of Demo.raising_final) = ["data_scraping"; "eda"]
  /\ exists code, history Demo.raising_final = [("Data Scraping", code)].
Proof.
  assert (main Demo.toy_exec Demo.toy_clock (initial (Demo.env_with Demo.src_raising))
          = (Return tt, Demo.raising_final)) as Hmain
    by (vm_compute; reflexivity).
  split; [exact Hmain|].
  destruct (main_phase_map Demo.toy_exec Demo.toy_clock _ _ Hmain)
    as (ts & code & s1 & s2 & ok & st0 & stp & _ & _ & _ & _ & _ & _ & Hh & Hkeys & _).
  split; [exact Hkeys | exists code; exact Hh].
Defined.

(** Scenario A: the scraping section raises, and the run completes. *)
Lemma main_completes_despite_failures_witness :
  exists st' out r,
    main Demo.toy_exec Demo.toy_clock (initial (Demo.env_with Demo.src_raising))
    = (Return tt, st')
    /\ results st' = Some r
    /\ PyDict.get "data_scraping" (phases r) = Some "failed"
    /\ stdout (env st') = out ++ completion_report (phases r)
    /\ FS.read_text (files (env st')) SUMMARY = Return (json_dump r).
Proof.
  exact (main_completes_despite_failures Demo.toy_exec Demo.toy_clock
           (Demo.env_with Demo.src_raising)
           Demo.raising_started Demo.src_raising false Demo.raising_phase_done
           ("pipeline_results.json" :: Demo.home)
           (snd (FS.open_w SUMMARY (files (env Demo.raising_phase_done))))
           ltac:(vm_compute; reflexivity) ltac:(vm_compute; reflexivity)
           ltac:(vm_compute; reflexivity) ltac:(vm_compute; reflexivity)).
Defined.

Example scenario_a_log_written :
  FS.is_file (files (env Demo.raising_final)) (log_file "Data Scraping") = true
  /\ PyDict.get "data_scraping" (phases_of Demo.raising_final) = Some "failed".
Proof. split; vm_compute; reflexivity. Qed.

Lemma empty_section_recorded_as_success_witness :
  scraper_section Demo.src_no_markers = EmptyString
  /\ PyDict.get "data_scraping" (phases_of Demo.no_markers_final) = Some "success"
  /\ history Demo.no_markers_final = [("Data Scraping", EmptyString)].
Proof.
  split; [vm_compute; reflexivity|].
  destruct (empty_section_recorded_as_success Demo.toy_exec Demo.toy_clock
              (Demo.env_with Demo.src_no_markers) Demo.src_no_markers
              Demo.no_markers_final)
    as (ts & s2 & st0 & stp & env' & _ & _ & _ & _ & _ & _ & Hget & Hhist).
  - intros e0. reflexivity.
  - vm_compute. reflexivity.
  - vm_compute. reflexivity.
  - vm_compute. reflexivity.
  - split; [exact Hget | exact Hhist].
Defined.

Lemma bad_markers_yield_body_witness :
  markers_bad Demo.src_no_end START_MARKER END_MARKER
  /\ scraper_section Demo.src_no_end = START_MARKER +:+ PyStr.nl +:+ "    pass"
  /\ history (snd (main Demo.toy_exec Demo.toy_clock
                     (initial (Demo.env_with Demo.src_no_end))))
     = [("Data Scraping", scraper_section Demo.src_no_end)].
Proof.
  assert (markers_bad Demo.src_no_end START_MARKER END_MARKER) as Hbad
    by (right; left; vm_compute; reflexivity).
  split; [exact Hbad|].
  destruct (bad_markers_yield_body Demo.toy_exec Demo.toy_clock
              Demo.src_no_end START_MARKER END_MARKER Hbad) as [Hbody Hrun].
  split.
  - unfold scraper_section. rewrite Hbody. vm_compute. reflexivity.
  - apply (Hrun (Demo.env_with Demo.src_no_end) Demo.no_end_started
             (fst (main Demo.toy_exec Demo.toy_clock
                     (initial (Demo.env_with Demo.src_no_end)))));
      [vm_compute; reflexivity | vm_compute; reflexivity |].
    destruct (main Demo.toy_exec Demo.toy_clock
                (initial (Demo.env_with Demo.src_no_end))); reflexivity.
Defined.

(** C1, as stated, fails: with the start marker and no end marker in the
    source, [main] runs phase 1 on the text from the start marker up to
    the last character but one, and returns. *)
Lemma bad_markers_abort_counterexample :
  ~ bad_markers_abort Demo.toy_exec Demo.toy_clock (Demo.env_with Demo.src_no_end).
Proof.
  intros Hclaim.
  destruct (Hclaim Demo.src_no_end) as (x & st' & Hmain & _).
  - vm_compute. reflexivity.
  - right. left. vm_compute. reflexivity.
  - vm_compute in Hmain. discriminate Hmain.
Qed.

Example no_end_marker_body_is_run :
  history (snd (main Demo.toy_exec Demo.toy_clock
                  (initial (Demo.env_with Demo.src_no_end))))
  = [("Data Scraping", START_MARKER +:+ PyStr.nl +:+ "    pass")].
Proof. vm_compute. reflexivity. Qed.

(** * Further properties of the runner *)

Section RunPhaseMore.

Context {Globals : Type}.
Variable exec : string -> @Env Globals -> outcome * @Env Globals.
Variable clock : nat -> DateTime.datetime.

Lemma open_w_raise_unchanged p s err s1 :
  FS.open_w p s = (Raise err, s1) -> s1 = s.
Proof.
  unfold FS.open_w.
  destruct (FS.resolve s p) as [l|e]; [|intros [= _ <-]; reflexivity].
  destruct (FS.node_at (FS.tree s) l) as [[|]|];
    try destruct (FS.names_entry p); intros H; inversion H; reflexivity.
Qed.

(** X1: an exception of the body that does not derive from [Exception]
    ([SystemExit], [KeyboardInterrupt]) passes through [run_phase]:
    nothing is printed or logged after the body, and the environment is
    as the body left it. *)
Theorem run_phase_passes_base_exception phase_name code (st : @RunState Globals) e env' :
  exec code (entered phase_name (env st)) = (Raises e, env') ->
  is_Exception e = false ->
  exists st',
    run_phase exec clock phase_name code st = (Raise (Uncaught e), st')
    /\ env st' = env'
    /\ results st' = results st.
Proof.
  intros Hexec Hexc. rewrite run_phase_eq, Hexec, Hexc.
  eexists. split; [reflexivity|]. split; reflexivity.
Qed.

(** X2: when the body raises an error and the log file cannot be opened,
    the [OSError] of [open] leaves [run_phase] instead of [False]: the two
    failure lines are printed, the clock is not read and the file system
    is as the body left it. *)
Theorem run_phase_fails_without_log phase_name code (st : @RunState Globals) e env' err s1 :
  exec code (entered phase_name (env st)) = (Raises e, env') ->
  is_Exception e = true ->
  FS.open_w (log_file phase_name) (files env') = (Raise err, s1) ->
  exists st',
    run_phase exec clock phase_name code st = (Raise (OSError err), st')
    /\ files (env st') = files env'
    /\ ticks (env st') = ticks env'
    /\ stdout (env st')
       = stdout env'
         ++ [PyStr.nl +:+ "✗ " +:+ phase_name +:+ " failed with error:";
             format_exc e].
Proof.
  intros Hexec Hexc Hopen. rewrite run_phase_eq, Hexec, Hexc.
  cbn zeta. cbn [files add_stdout]. rewrite Hopen.
  apply open_w_raise_unchanged in Hopen. subst s1.
  eexists. split; [reflexivity|]. repeat split.
Qed.

(** X3: what the answer of [run_phase] tells: it is [True] exactly when
    the body completed, and [False] exactly when the body raised an error
    and the log file could be opened. *)
Theorem run_phase_answer phase_name code (st : @RunState Globals) :
  (fst (run_phase exec clock phase_name code st) = Return true
   <-> fst (exec code (entered phase_name (env st))) = Completed)
  /\ (fst (run_phase exec clock phase_name code st) = Return false
      <-> exists e l,
            fst (exec code (entered phase_name (env st))) = Raises e
            /\ is_Exception e = true
            /\ fst (FS.open_w (log_file phase_name)
                      (files (snd (exec code (entered phase_name (env st))))))
               = Return l).
Proof.
  rewrite run_phase_eq.
  destruct (exec code (entered phase_name (env st))) as [[|e] env'] eqn:Hexec;
    cbn [fst snd].
  - split; [split; reflexivity|].
    split; [discriminate | intros (e & l & H & _); discriminate].
  - destruct (is_Exception e) eqn:Hexc.
    + cbn zeta. cbn [files add_stdout].
      destruct (FS.open_w (log_file phase_name) (files env')) as [[l|err] s1];
        cbn [fst].
      * split; [split; discriminate|].
        split; [intros _; exists e, l; auto | reflexivity].
      * split; [split; discriminate|].
        split; [discriminate | intros (e0 & l & _ & _ & H); discriminate].
    + cbn [fst]. split; [split; discriminate|].
      split; [discriminate|].
      intros (e0 & l & [= <-] & H & _). congruence.
Qed.

End RunPhaseMore.

Lemma run_phase_passes_base_exception_witness :
  exists st',
    run_phase Demo.toy_exec Demo.toy_clock "Data Scraping" "sys.exit(1)"
      (initial (Demo.env_of Demo.logs_tree)) = (Raise (Uncaught Demo.SystemExit), st')
    /\ env st' = entered "Data Scraping" (Demo.env_of Demo.logs_tree).
Proof.
  destruct (run_phase_passes_base_exception Demo.toy_exec Demo.toy_clock
              "Data Scraping" "sys.exit(1)"
              (initial (Demo.env_of Demo.logs_tree)) Demo.SystemExit
              (entered "Data Scraping" (Demo.env_of Demo.logs_tree)))
    as (st' & Hrun & Henv & _); [vm_compute; reflexivity | reflexivity |].
  exists st'. split; [exact Hrun | exact Henv].
Defined.

Lemma run_phase_fails_without_log_witness :
  exists st',
    run_phase Demo.toy_exec Demo.toy_clock "Data Scraping" Demo.raising_body
      (initial (Demo.env_of Demo.empty_tree)) = (Raise (OSError FS.ENOENT), st')
    /\ files (env st') = files (Demo.env_of Demo.empty_tree).
Proof.
  destruct (run_phase_fails_without_log Demo.toy_exec Demo.toy_clock
              "Data Scraping" Demo.raising_body
              (initial (Demo.env_of Demo.empty_tree)) Demo.RuntimeError
              (entered "Data Scraping" (Demo.env_of Demo.empty_tree))
              FS.ENOENT (files (Demo.env_of Demo.empty_tree)))
    as (st' & Hrun & Hfiles & _);
    [vm_compute; reflexivity | reflexivity | vm_compute; reflexivity |].
  exists st'. split; [exact Hrun | exact Hfiles].
Defined.

Section SetupMore.

Context {Globals : Type}.

(** X4: [setup_environment] only adds: whether it succeeds or fails,
    every path that led to a file or a directory before leads to the same
    node (a file with the same content) after, and the working directory
    is the same. *)
Theorem setup_environment_keeps_nodes (st : @RunState Globals) r st' p n :
  setup_environment st = (r, st') ->
  FS.stat (files (env st)) p = Return n ->
  FS.stat (files (env st')) p = Return n
  /\ FS.cwd (files (env st')) = FS.cwd (files (env st)).
Proof.
  intros Hrun Hstat.
  apply setup_environment_spec in Hrun as (s' & Hext & _ & Hraise & Hok).
  assert (files (env st') = s') as ->.
  { destruct r as [[]|x].
    - destruct (Hok eq_refl) as [_ ->]. destruct st as [[? ? ? ?] ? ?]. reflexivity.
    - destruct (Hraise x eq_refl) as [_ ->]. destruct st as [[? ? ? ?] ? ?]. reflexivity. }
  split; [eapply FSFacts.stat_mono; eassumption | apply Hext].
Qed.

(** X5: after a run of [setup_environment] that returns, each of the
    thirteen paths is a directory, and exactly one line was printed. *)
Theorem setup_environment_makes_directories (st st' : @RunState Globals) :
  setup_environment st = (Return tt, st') ->
  Forall (fun d => FS.is_dir (files (env st')) (FS.path_of d) = true) directories
  /\ stdout (env st') = stdout (env st) ++ ["✓ Directory structure created"]
  /\ ticks (env st') = ticks (env st)
  /\ results st' = results st.
Proof.
  intros Hrun.
  apply setup_environment_spec in Hrun as (s' & _ & _ & _ & Hok).
  destruct (Hok eq_refl) as [Hdirs ->].
  destruct st as [[? ? ? ?] ? ?]. repeat split. exact Hdirs.
Qed.

Lemma make_dirs_blocked ds : forall (st : @RunState Globals) d c,
  d ∈ ds ->
  FS.stat (files (env st)) (FS.path_of d) = Return (FS.File c) ->
  exists e st',
    for_each ds (fun d => mkdir_p (FS.path_of d)) st = (Raise (OSError e), st')
    /\ stdout (env st') = stdout (env st).
Proof.
  induction ds as [|d0 ds IH]; intros st d c Hin Hfile.
  - apply elem_of_nil in Hin. contradiction.
  - cbn [for_each]. unfold bind, mkdir_p at 1.
    destruct (FS.mkdir_p (FS.path_of d0) (files (env st))) as [[[]|e] s1] eqn:Hmk.
    + apply FSFacts.mkdir_p_extends in Hmk as [Hext Hdir].
      pose proof (FSFacts.stat_mono _ _ _ _ _ Hext Hfile) as Hfile1.
      apply elem_of_cons in Hin as [-> | Hin].
      * specialize (Hdir eq_refl). unfold FS.is_dir in Hdir.
        rewrite Hfile1 in Hdir. discriminate.
      * destruct (IH (set_env (set_files s1 (env st)) st) d c Hin)
          as (e & st' & Hrun & Hout).
        { destruct st as [[? ? ? ?] ? ?]. exact Hfile1. }
        exists e, st'. split; [exact Hrun|]. rewrite Hout.
        destruct st as [[? ? ? ?] ? ?]. reflexivity.
    + exists e. eexists. split; [reflexivity|].
      destruct st as [[? ? ? ?] ? ?]. reflexivity.
Qed.

(** X6: [exist_ok=True] forgives a directory that is there, not a file:
    when one of the thirteen paths leads to a regular file,
    [setup_environment] raises an [OSError] and does not print its line. *)
Theorem setup_environment_blocked_by_file (st : @RunState Globals) d c :
  d ∈ directories ->
  FS.stat (files (env st)) (FS.path_of d) = Return (FS.File c) ->
  exists e st',
    setup_environment st = (Raise (OSError e), st')
    /\ stdout (env st') = stdout (env st).
Proof.
  intros Hin Hfile. unfold setup_environment, bind.
  destruct (make_dirs_blocked directories st d c Hin Hfile) as (e & st' & -> & Hout).
  exists e, st'. split; [reflexivity | exact Hout].
Qed.

End SetupMore.

Lemma setup_environment_keeps_nodes_witness :
  FS.stat (files (env (snd (setup_environment
                              (initial (Demo.env_with Demo.src_raising))))))
    SOURCE
  = Return (FS.File Demo.src_raising).
Proof.
  apply (setup_environment_keeps_nodes
           (initial (Demo.env_with Demo.src_raising))
           (fst (setup_environment (initial (Demo.env_with Demo.src_raising))))
           _ SOURCE (FS.File Demo.src_raising)).
  - destruct (setup_environment (initial (Demo.env_with Demo.src_raising)));
      reflexivity.
  - vm_compute. reflexivity.
Defined.

Lemma setup_environment_makes_directories_witness :
  Forall (fun d => FS.is_dir (files (env Demo.after_setup)) (FS.path_of d) = true)
    directories
  /\ stdout (env Demo.after_setup) = ["✓ Directory structure created"].
Proof.
  destruct (setup_environment_makes_directories
              (initial (Demo.env_of Demo.empty_tree)) Demo.after_setup)
    as (Hdirs & Hout & _); [vm_compute; reflexivity|].
  split; [exact Hdirs | exact Hout].
Defined.

Lemma setup_environment_blocked_by_file_witness :
  exists e st',
    setup_environment (initial (Demo.env_of Demo2.logs_is_file))
    = (Raise (OSError e), st')
    /\ stdout (env st') = [].
Proof.
  destruct (setup_environment_blocked_by_file
              (initial (Demo.env_of Demo2.logs_is_file)) "logs" "notes")
    as (e & st' & Hrun & Hout).
  - unfold directories. do 12 apply list_elem_of_further.
    apply list_elem_of_here.
  - vm_compute. reflexivity.
  - exists e, st'. split; [exact Hrun | exact Hout].
Defined.

(** ** More on slices and on the place of the log *)

Module SliceFacts.
Import PyStr PyStrFacts.

Lemma substring_split s : forall n a b,
  String.substring n (a + b) s
  = String.substring n a s +:+ String.substring (n + a) b s.
Proof.
  induction s as [|c s IH]; intros [|n] [|a] b; cbn [Nat.add String.substring].
  - destruct b; reflexivity.
  - reflexivity.
  - reflexivity.
  - reflexivity.
  - reflexivity.
  - rewrite append_cons. f_equal. apply (IH 0%nat a b).
  - apply (IH n 0%nat b).
  - apply (IH n (S a) b).
Qed.

Lemma substring_whole s : forall k,
  (String.length s <= k)%nat -> String.substring 0 k s = s.
Proof.
  induction s as [|c s IH]; intros [|k] H; cbn in *; try reflexivity; try lia.
  f_equal. apply IH. lia.
Qed.

Lemma substring_split_0 s a b :
  String.substring 0 (a + b) s
  = String.substring 0 a s +:+ String.substring a b s.
Proof. exact (substring_split s 0 a b). Qed.

Lemma substring_contains s n m : contains s (String.substring n m s).
Proof.
  exists (String.substring 0 n s),
    (String.substring (n + m) (String.length s) s).
  rewrite <- (substring_split s n m (String.length s)).
  rewrite <- (substring_split_0 s n (m + String.length s)).
  symmetry. apply substring_whole. lia.
Qed.

End SliceFacts.

Section ExtractMore.
Import PyStr PyStrFacts SliceFacts.

(** X7: whatever the markers, the slice is a part of the source text:
    nothing is invented, and it is no longer than the source. *)
Theorem extract_is_part_of_source (text s e : string) :
  contains text (extract text s e)
  /\ (String.length (extract text s e) <= String.length text)%nat.
Proof.
  unfold extract, slice. split.
  - apply substring_contains.
  - rewrite substring_length. lia.
Qed.

(** X8: with the end marker first found after the start marker, the
    source is what stands before the start marker, then the body, then a
    rest that begins with the end marker: the body can be put back. *)
Theorem extract_splits_source (text s e : string) (i j : nat) :
  find text s = Z.of_nat i ->
  find text e = Z.of_nat j ->
  (i < j)%nat ->
  exists pre rest,
    text = pre +:+ extract text s e +:+ e +:+ rest
    /\ String.length pre = i
    /\ String.length (extract text s e) = (j - i)%nat.
Proof.
  intros Hs He Hij.
  pose proof (find_le_len _ _ _ Hs) as Hi.
  destruct (find_found _ _ _ He) as [[Hfit Hocc] _].
  assert (extract text s e = String.substring i (j - i) text) as ->.
  { unfold extract. rewrite Hs, He. apply slice_inside; lia. }
  exists (String.substring 0 i text),
    (String.substring (j + String.length e)
       (String.length text - j - String.length e) text).
  split; [|split].
  - set (R := (String.length text - j - String.length e)%nat).
    pose proof (substring_split text j (String.length e) R) as E1.
    pose proof (substring_split text i (j - i) (String.length e + R)) as E2.
    pose proof (substring_split_0 text i (j - i + (String.length e + R))) as E3.
    replace (i + (j - i))%nat with j in E2 by lia.
    rewrite Hocc in E1. rewrite E1 in E2. rewrite E2 in E3.
    rewrite <- E3. symmetry. apply substring_whole. lia.
  - rewrite substring_length. lia.
  - rewrite substring_length. lia.
Qed.

Lemma extract_splits_source_witness :
  exists pre rest,
    "xx<a>body<b>yy" = pre +:+ extract "xx<a>body<b>yy" "<a>" "<b>" +:+ "<b>" +:+ rest
    /\ String.length pre = 2%nat.
Proof.
  destruct (extract_splits_source "xx<a>body<b>yy" "<a>" "<b>" 2 9)
    as (pre & rest & Heq & Hlen & _); [reflexivity | reflexivity | lia |].
  exists pre, rest. split; [exact Heq | exact Hlen].
Defined.

End ExtractMore.

Module LogPathFacts.
Import PyStr PyStrFacts.

Lemma split_no_slash s : forall acc,
  has_char "/" s = false -> FS.split_slash acc s = [acc +:+ s].
Proof.
  induction s as [|c s IH]; intros acc H; cbn [FS.split_slash].
  - rewrite append_nil_r. reflexivity.
  - cbn [has_char] in H. apply orb_false_iff in H as [Hc Hs].
    rewrite Hc, IH by assumption. rewrite append_assoc. reflexivity.
Qed.

Lemma has_char_app c a b :
  has_char c (a +:+ b) = has_char c a || has_char c b.
Proof.
  induction a as [|x a IH]; [reflexivity|].
  rewrite append_cons. cbn [has_char]. rewrite IH, orb_assoc. reflexivity.
Qed.

Lemma normalize_char_slash c :
  Ascii.eqb (if Ascii.eqb (lower_char c) " " then "_"%char else lower_char c) "/"
  = Ascii.eqb c "/".
Proof. destruct c as [[] [] [] [] [] [] [] []]; vm_compute; reflexivity. Qed.

Lemma normalize_keeps_slashes name :
  has_char "/" (normalize name) = has_char "/" name.
Proof.
  unfold normalize. induction name as [|c name IH]; [reflexivity|].
  cbn [lower replace_char has_char]. rewrite normalize_char_slash, IH.
  reflexivity.
Qed.

Lemma prefix_slash x : has_char "/" x = false -> String.prefix "/" x = false.
Proof.
  destruct x as [|a x]; [reflexivity|]. cbn [has_char String.prefix].
  intros H. apply orb_false_iff in H as [Ha _].
  destruct (ascii_dec "/" a) as [<-|]; [discriminate | reflexivity].
Qed.

Lemma keep_long_part x : (2 <= String.length x)%nat -> FS.keep_part x = true.
Proof.
  destruct x as [|a [|b x]]; cbn [String.length]; try lia. intros _.
  unfold FS.keep_part. cbn [String.eqb].
  destruct (Ascii.eqb a "."); reflexivity.
Qed.

Lemma length_append (a b : string) :
  String.length (a +:+ b) = (String.length a + String.length b)%nat.
Proof.
  induction a as [|x a IH]; [reflexivity|].
  rewrite append_cons. cbn [String.length]. rewrite IH. reflexivity.
Qed.

(** X9: for a phase name without a slash, the log lies right under
    [logs], in the file named by the lower-cased name with its spaces
    replaced. *)
Theorem log_file_under_logs (phase_name : string) :
  has_char "/" phase_name = false ->
  log_file phase_name
  = {| FS.absolute := false;
       FS.parts := ["logs"; normalize phase_name +:+ "_error.log"] |}.
Proof.
  intros Hname. unfold log_file, FS.joinpath.
  set (x := normalize phase_name +:+ "_error.log").
  assert (has_char "/" x = false) as Hx.
  { unfold x. rewrite has_char_app, normalize_keeps_slashes, Hname. reflexivity. }
  assert (FS.path_of x = {| FS.absolute := false; FS.parts := [x] |}) as ->.
  { unfold FS.path_of. rewrite (prefix_slash x Hx), (split_no_slash x "" Hx).
    change ("" +:+ x) with x.
    assert (FS.keep_part x = true) as Hkeep.
    { apply keep_long_part. unfold x. rewrite length_append. cbn. lia. }
    rewrite filter_cons_True by exact Hkeep. reflexivity. }
  reflexivity.
Qed.

Lemma log_file_under_logs_witness :
  log_file "Data Scraping"
  = {| FS.absolute := false; FS.parts := ["logs"; "data_scraping_error.log"] |}.
Proof. apply (log_file_under_logs "Data Scraping"). reflexivity. Defined.

(** X10: a phase name that begins with a slash sends the log out of
    [logs]: joined to an absolute path, [Path('logs')] is dropped. *)
Theorem log_file_of_rooted_name (phase_name : string) :
  String.prefix "/" phase_name = true ->
  log_file phase_name = FS.path_of (normalize phase_name +:+ "_error.log")
  /\ FS.absolute (log_file phase_name) = true.
Proof.
  intros Hname. destruct phase_name as [|c rest]; [discriminate|].
  cbn [String.prefix] in Hname.
  destruct (ascii_dec "/" c) as [<-|]; [|discriminate].
  assert (FS.absolute (FS.path_of (normalize (String "/" rest) +:+ "_error.log"))
          = true) as Habs.
  { unfold FS.path_of, normalize. cbn [FS.absolute lower replace_char].
    change (lower_char "/") with "/"%char. cbn [Ascii.eqb Bool.eqb].
    rewrite append_cons. cbn [String.prefix].
    destruct (ascii_dec "/" "/") as [_|Hne]; [|contradiction].
    match goal with |- String.prefix "" ?y = true => destruct y; reflexivity end. }
  unfold log_file, FS.joinpath. rewrite Habs. split; [reflexivity | exact Habs].
Qed.

Lemma log_file_of_rooted_name_witness :
  log_file "/tmp/Run 1"
  = {| FS.absolute := true; FS.parts := ["tmp"; "run_1_error.log"] |}.
Proof.
  destruct (log_file_of_rooted_name "/tmp/Run 1") as [-> _]; reflexivity.
Defined.

End LogPathFacts.

(** ** More on [main] *)

Module PathFacts.
Import FS.

Lemma KEPLER_eq :
  KEPLER = {| absolute := false; parts := ["data"; "raw"; "kepler_cumulative.csv"] |}.
Proof. reflexivity. Qed.

Lemma RAW_DIR_eq : RAW_DIR = {| absolute := false; parts := ["data"; "raw"] |}.
Proof. reflexivity. Qed.

Lemma open_w_returns p s l s1 :
  open_w p s = (Return l, s1) ->
  resolve s p = Return l
  /\ node_at (tree s) l <> Some Dir
  /\ s1 = {| tree := <[l := File ""]> (tree s); cwd := cwd s |}.
Proof.
  unfold open_w. destruct (resolve s p) as [l'|e]; [|discriminate].
  destruct (node_at (tree s) l') as [[|]|] eqn:Hn;
    [| discriminate | destruct (names_entry p); [|discriminate]];
    intros [= <- <-]; repeat split; congruence.
Qed.

(** A file that was read before is read the same after another file has
    been opened and written. *)
Lemma read_text_other_write s p c p2 l2 s2 c2 :
  read_text s p = Return c ->
  open_w p2 s = (Return l2, s2) ->
  resolve s p <> Return l2 ->
  read_text (write_handle l2 c2 s2) p = Return c.
Proof.
  intros Hread Hopen Hne.
  apply open_w_returns in Hopen as (_ & Hnd & ->).
  unfold read_text, stat in *.
  destruct (resolve s p) as [l|e] eqn:Hr; [|discriminate].
  destruct (node_at (tree s) l) as [[c'|]|] eqn:Hn; try discriminate.
  injection Hread as ->.
  unfold resolve, write_handle in *. cbn [tree cwd].
  rewrite insert_insert_eq.
  rewrite (FSFacts.walk_insert_file _ _ _ _ _ _ Hnd Hr).
  destruct l as [|a l]; [discriminate|].
  rewrite FSFacts.node_at_cons in *. rewrite lookup_insert_ne; [rewrite Hn; reflexivity|].
  intros ->. apply Hne. reflexivity.
Qed.

Lemma step_name cur c : String.eqb c ".." = false -> step cur c = c :: cur.
Proof. unfold step. intros ->. reflexivity. Qed.

Lemma resolve_one s a l :
  String.eqb a ".." = false ->
  resolve s {| absolute := false; parts := [a] |} = Return l ->
  l = a :: cwd s.
Proof.
  unfold resolve. cbn [absolute parts walk]. intros Ha.
  destruct (node_at (tree s) (cwd s)) as [[|]|]; try discriminate.
  rewrite (step_name _ _ Ha). congruence.
Qed.

Lemma resolve_two s a b l :
  String.eqb a ".." = false -> String.eqb b ".." = false ->
  resolve s {| absolute := false; parts := [a; b] |} = Return l ->
  l = b :: a :: cwd s.
Proof.
  unfold resolve. cbn [absolute parts walk]. intros Ha Hb.
  destruct (node_at (tree s) (cwd s)) as [[|]|]; try discriminate.
  rewrite (step_name _ _ Ha).
  destruct (node_at (tree s) (a :: cwd s)) as [[|]|]; try discriminate.
  rewrite (step_name _ _ Hb). congruence.
Qed.

(** When [data/raw/kepler_cumulative.csv] is there, [data/raw] is a
    directory and lists a [*.csv]. *)
Lemma kepler_is_raw_csv s :
  exists_ s KEPLER = true ->
  exists_ s RAW_DIR = true /\ glob_csv s RAW_DIR <> [].
Proof.
  unfold exists_, stat. rewrite KEPLER_eq, RAW_DIR_eq.
  unfold glob_csv, resolve. cbn [absolute parts walk].
  destruct (node_at (tree s) (cwd s)) as [[|]|]; try discriminate.
  rewrite (step_name _ "data") by reflexivity.
  destruct (node_at (tree s) ("data" :: cwd s)) as [[|]|]; try discriminate.
  rewrite (step_name _ "raw") by reflexivity.
  destruct (node_at (tree s) ("raw" :: "data" :: cwd s)) as [[|]|] eqn:Hraw;
    try discriminate.
  rewrite (step_name _ "kepler_cumulative.csv") by reflexivity.
  rewrite FSFacts.node_at_cons.
  destruct (tree s !! ("kepler_cumulative.csv" :: "raw" :: "data" :: cwd s))
    as [n|] eqn:Hk; [|discriminate].
  intros _. split; [reflexivity|].
  intros Hnil.
  assert ("kepler_cumulative.csv"
          ∈ omap (fun kv : loc * node =>
                    match fst kv with
                    | name :: l' =>
                        if bool_decide (l' = "raw" :: "data" :: cwd s)
                           && PyStr.endswith name ".csv"
                        then Some name else None
                    | [] => None
                    end) (map_to_list (tree s))) as Hin.
  { apply list_elem_of_omap.
    exists ("kepler_cumulative.csv" :: "raw" :: "data" :: cwd s, n). split.
    - apply elem_of_map_to_list. exact Hk.
    - cbn [fst]. rewrite bool_decide_eq_true_2 by reflexivity. reflexivity. }
  rewrite Hnil in Hin. apply elem_of_nil in Hin. exact Hin.
Qed.

(** Without [data/raw] there is no [data/raw/kepler_cumulative.csv]. *)
Lemma no_raw_no_kepler s :
  exists_ s RAW_DIR = false -> exists_ s KEPLER = false.
Proof.
  unfold exists_, stat. rewrite KEPLER_eq, RAW_DIR_eq.
  unfold resolve. cbn [absolute parts walk].
  destruct (node_at (tree s) (cwd s)) as [[|]|]; try reflexivity.
  rewrite (step_name _ "data") by reflexivity.
  destruct (node_at (tree s) ("data" :: cwd s)) as [[|]|]; try reflexivity.
  rewrite (step_name _ "raw") by reflexivity.
  destruct (node_at (tree s) ("raw" :: "data" :: cwd s)) as [[|]|];
    try reflexivity; discriminate.
Qed.

Lemma exists_stat s p : exists_ s p = true -> exists n, stat s p = Return n.
Proof. unfold exists_. destruct (stat s p) as [n|e]; [eauto | discriminate]. Qed.

Lemma not_exists_stat s p : exists_ s p = false -> exists e, stat s p = Raise e.
Proof. unfold exists_. destruct (stat s p) as [n|e]; [discriminate | eauto]. Qed.

End PathFacts.

Module PyDictFacts.

(** Reading a key just after it was set gives the value set. *)
Lemma get_set_same k v d : PyDict.get k (PyDict.set k v d) = Some v.
Proof.
  induction d as [|[k' v'] d IH]; cbn [PyDict.set PyDict.get].
  - rewrite String.eqb_refl. reflexivity.
  - destruct (String.eqb k' k) eqn:E; cbn [PyDict.get]; rewrite E;
      [reflexivity | exact IH].
Qed.

End PyDictFacts.

Section MainMore.

Context {Globals : Type}.
Variable exec : string -> @Env Globals -> outcome * @Env Globals.
Variable clock : nat -> DateTime.datetime.

(** Lines 66-82, once the source is read and phase 1 has answered. *)
Lemma scraping_exact (st : @RunState Globals) text ok stp :
  FS.read_text (files (env st)) SOURCE = Return text ->
  run_phase exec clock "Data Scraping" (scraper_section text) st = (Return ok, stp) ->
  scraping exec clock st
  = (Return tt,
     {| env := add_stdout (data_notes ok (files (env stp))) (env stp);
        history := history stp;
        results :=
          record_phase "data_scraping" (if ok : bool then "success" else "failed")
            <$> results stp |}).
Proof.
  intros Hread Hrun. unfold scraping, bind at 1, read_text. rewrite Hread.
  unfold bind at 1. rewrite Hrun.
  destruct stp as [[fs out0 tk g] h r0].
  unfold bind, path_exists, glob_csv, set_phase, print, ret, set_env, add_stdout,
    data_notes.
  destruct ok; cbn [env files stdout ticks globals history results];
    destruct (FS.exists_ fs RAW_DIR);
    cbn [env files stdout ticks globals history results];
    try destruct (FS.glob_csv fs RAW_DIR);
    cbn [env files stdout ticks globals history results app];
    rewrite <- ?app_assoc, ?app_nil_r; reflexivity.
Qed.

(** Lines 84-91 *)
Lemma eda_gate_exact (st : @RunState Globals) :
  eda_gate st
  = (Return tt,
     {| env := add_stdout [gate_note (files (env st))] (env st);
        history := history st;
        results := record_phase "eda" (eda_label (files (env st))) <$> results st |}).
Proof.
  unfold eda_gate, bind, path_exists, print, set_phase, eda_label, gate_note,
    FS.exists_.
  cbv beta iota.
  destruct (FS.stat (files (env st)) KEPLER); reflexivity.
Qed.

End MainMore.

Section MainMore2.

Context {Globals : Type}.
Variable exec : string -> @Env Globals -> outcome * @Env Globals.
Variable clock : nat -> DateTime.datetime.

(** X11: an exception of the scraping section that does not derive from
    [Exception] ends the whole run: [main] raises it, no phase is
    recorded, and the environment is as the body left it (no log, no
    summary, nothing printed after). *)
Theorem main_aborted_by_base_exception (e0 : @Env Globals) st0 text x env' :
  startup clock (initial e0) = (Return tt, st0) ->
  FS.read_text (files (env st0)) SOURCE = Return text ->
  exec (scraper_section text) (entered "Data Scraping" (env st0)) = (Raises x, env') ->
  is_Exception x = false ->
  exists st',
    main exec clock (initial e0) = (Raise (Uncaught x), st')
    /\ env st' = env'
    /\ phases_of st' = [].
Proof.
  intros Hstart Hread Hexec Hexc.
  assert (run_phase exec clock "Data Scraping" (scraper_section text) st0
          = (Raise (Uncaught x),
             {| env := env';
                history := history st0 ++ [("Data Scraping", scraper_section text)];
                results := results st0 |})) as Hrun
    by (rewrite run_phase_eq, Hexec, Hexc; reflexivity).
  unfold main, bind at 1. rewrite Hstart. unfold bind at 1.
  rewrite (scraping_phase_raises _ _ _ _ _ _ Hread Hrun).
  apply startup_spec in Hstart as (_ & _ & _ & _ & Hres0).
  destruct (Hres0 eq_refl) as [ts Hr0].
  eexists. split; [reflexivity|]. split; [reflexivity|].
  unfold phases_of. cbn [results]. rewrite Hr0. reflexivity.
Qed.

(** X12: when the summary cannot be opened (say [pipeline_results.json]
    is a directory), [main] ends with the [OSError] of [open] after both
    phases were recorded: the file system is as phase 1 left it, and the
    completion report is not printed. *)
Theorem main_fails_at_summary (e0 : @Env Globals) st0 text ok stp err s1 :
  startup clock (initial e0) = (Return tt, st0) ->
  FS.read_text (files (env st0)) SOURCE = Return text ->
  run_phase exec clock "Data Scraping" (scraper_section text) st0 = (Return ok, stp) ->
  FS.open_w SUMMARY (files (env stp)) = (Raise err, s1) ->
  exists st',
    main exec clock (initial e0) = (Raise (OSError err), st')
    /\ files (env st') = files (env stp)
    /\ PyDict.keys (phases_of st') = ["data_scraping"; "eda"]
    /\ stdout (env st')
       = stdout (env stp) ++ data_notes ok (files (env stp))
         ++ [gate_note (files (env stp))].
Proof.
  intros Hstart Hread Hrun Hopen.
  pose proof (open_w_raise_unchanged _ _ _ _ Hopen) as ->.
  apply startup_spec in Hstart as Hs. destruct Hs as (_ & _ & _ & _ & Hres0).
  destruct (Hres0 eq_refl) as [ts Hr0]. clear Hres0.
  apply run_phase_frame in Hrun as Hp. destruct Hp as [_ Hrp].
  unfold main, bind at 1. rewrite Hstart. unfold bind at 1.
  rewrite (scraping_exact _ _ _ _ _ _ Hread Hrun).
  unfold bind at 1. rewrite eda_gate_exact.
  rewrite finish_eq. cbn [env history results files stdout add_stdout].
  rewrite Hopen, Hrp, Hr0.
  eexists. split; [reflexivity|].
  unfold phases_of.
  cbn [env history results files stdout set_env set_files add_stdout
       fmap option_fmap option_map from_option].
  split; [reflexivity|]. split; [reflexivity|].
  rewrite <- app_assoc. reflexivity.
Qed.

(** X13: scenario A from end to end. When the scraping section raises an
    error, the log can be opened and the summary can be opened, [main]
    returns: [data_scraping] is recorded as [failed], and at the end both
    the log of the failure and the summary are in place. *)
Theorem main_records_failed_phase (e0 : @Env Globals) st0 text x env' l s1 l2 s2 :
  startup clock (initial e0) = (Return tt, st0) ->
  FS.read_text (files (env st0)) SOURCE = Return text ->
  exec (scraper_section text) (entered "Data Scraping" (env st0)) = (Raises x, env') ->
  is_Exception x = true ->
  FS.open_w (log_file "Data Scraping") (files env') = (Return l, s1) ->
  FS.open_w SUMMARY
    (FS.write_handle l (log_content "Data Scraping" (clock (ticks env')) x) s1)
  = (Return l2, s2) ->
  exists st' r,
    main exec clock (initial e0) = (Return tt, st')
    /\ results st' = Some r
    /\ PyDict.get "data_scraping" (phases r) = Some "failed"
    /\ FS.read_text (files (env st')) (log_file "Data Scraping")
       = Return (log_content "Data Scraping" (clock (ticks env')) x)
    /\ FS.read_text (files (env st')) SUMMARY = Return (json_dump r).
Proof.
  intros Hstart Hread Hexec Hexc Hlog Hsum.
  set (content := log_content "Data Scraping" (clock (ticks env')) x) in *.
  assert (exists stp,
            run_phase exec clock "Data Scraping" (scraper_section text) st0
            = (Return false, stp)
            /\ files (env stp) = FS.write_handle l content s1) as (stp & Hrun & Hfp).
  { rewrite run_phase_eq, Hexec, Hexc. cbn zeta. cbn [files add_stdout ticks].
    rewrite Hlog. eexists. split; reflexivity. }
  apply startup_spec in Hstart as Hs. destruct Hs as (_ & _ & _ & _ & Hres0).
  destruct (Hres0 eq_refl) as [ts Hr0]. clear Hres0.
  apply run_phase_frame in Hrun as Hp. destruct Hp as [_ Hrp].
  unfold main, bind at 1. rewrite Hstart. unfold bind at 1.
  rewrite (scraping_exact _ _ _ _ _ _ Hread Hrun).
  unfold bind at 1. rewrite eda_gate_exact.
  rewrite finish_eq. cbn [env history results files stdout add_stdout].
  rewrite Hfp, Hsum, Hrp, Hr0.
  eexists. eexists. split; [reflexivity|].
  cbn [env history results files stdout fmap option_fmap option_map].
  split; [reflexivity|]. split; [reflexivity|]. split.
  - eapply PathFacts.read_text_other_write; [| exact Hsum |].
    + eapply FSFacts.open_write_read. exact Hlog.
    + intros Hsame.
      apply PathFacts.open_w_returns in Hsum as (Hr2 & _ & _).
      apply (PathFacts.resolve_one _ "pipeline_results.json") in Hr2;
        [|reflexivity].
      apply (PathFacts.resolve_two _ "logs" "data_scraping_error.log") in Hsame;
        [|reflexivity|reflexivity].
      rewrite Hr2 in Hsame. discriminate Hsame.
  - eapply FSFacts.open_write_read. exact Hsum.
Qed.

Lemma notes_when_kepler_present ok s :
  FS.exists_ s KEPLER = true ->
  data_notes ok s
  = (if ok then []
     else [PyStr.nl +:+ "⚠️ Data scraping failed, but continuing with pipeline..."])
  /\ gate_note s = PyStr.nl +:+ "✓ Raw data found, proceeding with EDA"
  /\ eda_label s = "skipped - requires manual review".
Proof.
  intros Hk. destruct (PathFacts.kepler_is_raw_csv _ Hk) as [Hraw Hglob].
  split; [|split].
  - unfold data_notes. rewrite Hraw.
    destruct (FS.glob_csv s RAW_DIR); [contradiction|]. apply app_nil_r.
  - unfold gate_note. rewrite Hk. reflexivity.
  - unfold eda_label. destruct (PathFacts.exists_stat _ _ Hk) as [n ->].
    reflexivity.
Qed.

Lemma notes_when_raw_missing ok s :
  FS.exists_ s RAW_DIR = false ->
  data_notes ok s
  = (if ok then []
     else [PyStr.nl +:+ "⚠️ Data scraping failed, but continuing with pipeline..."])
    ++ [PyStr.nl +:+ "⚠️ Warning: No raw data found. Some phases may fail."]
  /\ gate_note s = PyStr.nl +:+ "⚠️ Skipping EDA - no data available"
  /\ eda_label s = "skipped - no data".
Proof.
  intros Hraw. pose proof (PathFacts.no_raw_no_kepler _ Hraw) as Hk.
  split; [|split].
  - unfold data_notes. rewrite Hraw. reflexivity.
  - unfold gate_note. rewrite Hk. reflexivity.
  - unfold eda_label. destruct (PathFacts.not_exists_stat _ _ Hk) as [e ->].
    reflexivity.
Qed.

(** X14: the warning about raw data agrees with the gate. When
    [data/raw/kepler_cumulative.csv] is there after phase 1, the warning
    is not printed, and the gate prints that raw data was found and
    records, in [results], the phase [eda] as waiting for a manual
    review, next to the outcome recorded for [data_scraping]. *)
Theorem raw_warning_agrees_with_gate (st : @RunState Globals) text ok stp :
  FS.read_text (files (env st)) SOURCE = Return text ->
  run_phase exec clock "Data Scraping" (scraper_section text) st = (Return ok, stp) ->
  FS.exists_ (files (env stp)) KEPLER = true ->
  exists st1 st2,
    scraping exec clock st = (Return tt, st1)
    /\ eda_gate st1 = (Return tt, st2)
    /\ stdout (env st2)
       = stdout (env stp)
         ++ (if ok then []
             else [PyStr.nl
                   +:+ "⚠️ Data scraping failed, but continuing with pipeline..."])
         ++ [PyStr.nl +:+ "✓ Raw data found, proceeding with EDA"]
    /\ eda_label (files (env st1)) = "skipped - requires manual review"
    /\ history st2 = history stp
    /\ forall r, results stp = Some r ->
         results st2
         = Some {| timestamp := timestamp r;
                   phases :=
                     PyDict.set "eda" "skipped - requires manual review"
                       (PyDict.set "data_scraping"
                          (if ok then "success" else "failed") (phases r)) |}
         /\ PyDict.get "eda" (phases_of st2) = Some "skipped - requires manual review".
Proof.
  intros Hread Hrun Hk.
  destruct (notes_when_kepler_present ok _ Hk) as (Hnotes & Hgate & Hlabel).
  rewrite (scraping_exact _ _ _ _ _ _ Hread Hrun).
  eexists. eexists. split; [reflexivity|]. rewrite eda_gate_exact.
  split; [reflexivity|].
  cbn [env files stdout add_stdout].
  rewrite Hnotes, Hgate, Hlabel, <- app_assoc.
  split; [reflexivity|]. split; [reflexivity|]. split; [reflexivity|].
  intros r Hr. unfold phases_of. cbn [results]. rewrite Hr.
  cbn [fmap option_fmap option_map from_option record_phase phases timestamp].
  split; [reflexivity | apply PyDictFacts.get_set_same].
Qed.

(** X15: and when [data/raw] is missing after phase 1, the warning is
    printed, and the gate prints that it skips the EDA and records, in
    [results], the phase [eda] as skipped for want of data, next to the
    outcome recorded for [data_scraping]. *)
Theorem raw_dir_missing (st : @RunState Globals) text ok stp :
  FS.read_text (files (env st)) SOURCE = Return text ->
  run_phase exec clock "Data Scraping" (scraper_section text) st = (Return ok, stp) ->
  FS.exists_ (files (env stp)) RAW_DIR = false ->
  exists st1 st2,
    scraping exec clock st = (Return tt, st1)
    /\ eda_gate st1 = (Return tt, st2)
    /\ stdout (env st2)
       = stdout (env stp)
         ++ (if ok then []
             else [PyStr.nl
                   +:+ "⚠️ Data scraping failed, but continuing with pipeline..."])
         ++ [PyStr.nl +:+ "⚠️ Warning: No raw data found. Some phases may fail.";
             PyStr.nl +:+ "⚠️ Skipping EDA - no data available"]
    /\ eda_label (files (env st1)) = "skipped - no data"
    /\ history st2 = history stp
    /\ forall r, results stp = Some r ->
         results st2
         = Some {| timestamp := timestamp r;
                   phases :=
                     PyDict.set "eda" "skipped - no data"
                       (PyDict.set "data_scraping"
                          (if ok then "success" else "failed") (phases r)) |}
         /\ PyDict.get "eda" (phases_of st2) = Some "skipped - no data".
Proof.
  intros Hread Hrun Hraw.
  destruct (notes_when_raw_missing ok _ Hraw) as (Hnotes & Hgate & Hlabel).
  rewrite (scraping_exact _ _ _ _ _ _ Hread Hrun).
  eexists. eexists. split; [reflexivity|]. rewrite eda_gate_exact.
  split; [reflexivity|].
  cbn [env files stdout add_stdout].
  rewrite Hnotes, Hgate, Hlabel, <- !app_assoc.
  split; [reflexivity|]. split; [reflexivity|]. split; [reflexivity|].
  intros r Hr. unfold phases_of. cbn [results]. rewrite Hr.
  cbn [fmap option_fmap option_map from_option record_phase phases timestamp].
  split; [reflexivity | apply PyDictFacts.get_set_same].
Qed.

Lemma startup_timestamp (st : @RunState Globals) st' :
  startup clock st = (Return tt, st') ->
  results st'
  = Some {| timestamp := DateTime.isoformat (clock (ticks (env st))); phases := [] |}
  /\ ticks (env st') = S (ticks (env st)).
Proof.
  unfold startup, bind, print. cbv beta iota.
  match goal with
  | |- context [setup_environment ?s0] =>
      remember s0 as st0 eqn:Hst0;
      destruct (setup_environment st0) as [[[]|x] st1] eqn:Hsetup
  end; [|discriminate].
  apply setup_environment_spec in Hsetup as (s' & _ & _ & _ & Hok).
  destruct (Hok eq_refl) as [_ ->].
  assert (ticks (env st0) = ticks (env st)) as Ht
    by (subst st0; destruct st as [[? ? ? ?] ? ?]; reflexivity).
  unfold now, set_results. cbv beta iota. intros [= <-].
  cbn [env results ticks set_env set_files add_stdout]. rewrite Ht.
  split; reflexivity.
Qed.

(** X16: the timestamp of the summary is the time at which the run
    started, read before the source is opened and before any phase runs,
    and it has the shape of an ISO-8601 date and time. *)
Theorem main_timestamp_at_start (e0 : @Env Globals) st' :
  main exec clock (initial e0) = (Return tt, st') ->
  exists r,
    results st' = Some r
    /\ timestamp r = DateTime.isoformat (clock (ticks e0))
    /\ DateTime.iso8601_shape (timestamp r) = true.
Proof.
  intros H. apply main_returns in H
    as (ts & text & ok & st0 & stp & st1 & l & s1 & Hstart & _ & Hrun & Hscr & _
        & Hr1 & _ & _ & Hr' & _).
  apply startup_timestamp in Hstart as [Hr0 _].
  apply scraping_returns in Hscr
    as (text' & ok' & stp' & _ & Hrun' & Hr1' & _ & _).
  apply run_phase_frame in Hrun' as [_ Hrp].
  rewrite Hrp, Hr0, Hr1 in Hr1'. injection Hr1' as Hts _.
  eexists. split; [exact Hr'|]. cbn [timestamp initial env] in *.
  subst ts. split; [reflexivity | apply DateTimeFacts.isoformat_shape].
Qed.

End MainMore2.

(** *** Concrete runs *)

Lemma main_aborted_by_base_exception_witness :
  exists st',
    main Demo.toy_exec Demo.toy_clock (initial (Demo.env_with Demo2.src_exiting))
    = (Raise (Uncaught Demo.SystemExit), st')
    /\ phases_of st' = [].
Proof.
  destruct (main_aborted_by_base_exception Demo.toy_exec Demo.toy_clock
              (Demo.env_with Demo2.src_exiting) Demo2.exiting_started
              Demo2.src_exiting Demo.SystemExit
              (entered "Data Scraping" (env Demo2.exiting_started)))
    as (st' & Hmain & _ & Hphases);
    [vm_compute; reflexivity | vm_compute; reflexivity
    | vm_compute; reflexivity | reflexivity |].
  exists st'. split; [exact Hmain | exact Hphases].
Defined.

Lemma main_fails_at_summary_witness :
  exists st',
    main Demo.toy_exec Demo.toy_clock (initial (Demo.env_of Demo2.summary_is_dir))
    = (Raise (OSError FS.EISDIR), st')
    /\ PyDict.keys (phases_of st') = ["data_scraping"; "eda"].
Proof.
  destruct (main_fails_at_summary Demo.toy_exec Demo.toy_clock
              (Demo.env_of Demo2.summary_is_dir) Demo2.blocked_started
              Demo.src_raising false Demo2.blocked_phase_done FS.EISDIR
              (files (env Demo2.blocked_phase_done)))
    as (st' & Hmain & _ & Hkeys & _);
    [vm_compute; reflexivity | vm_compute; reflexivity
    | vm_compute; reflexivity | vm_compute; reflexivity |].
  exists st'. split; [exact Hmain | exact Hkeys].
Defined.

Lemma main_records_failed_phase_witness :
  exists st' r,
    main Demo.toy_exec Demo.toy_clock (initial (Demo.env_with Demo.src_raising))
    = (Return tt, st')
    /\ results st' = Some r
    /\ PyDict.get "data_scraping" (phases r) = Some "failed"
    /\ FS.read_text (files (env st')) (log_file "Data Scraping")
       = Return (log_content "Data Scraping" (Demo.toy_clock 1) Demo.RuntimeError).
Proof.
  destruct (main_records_failed_phase Demo.toy_exec Demo.toy_clock
              (Demo.env_with Demo.src_raising) Demo.raising_started
              Demo.src_raising Demo.RuntimeError
              (entered "Data Scraping" (env Demo.raising_started))
              ("data_scraping_error.log" :: "logs" :: Demo.home)
              (snd (FS.open_w (log_file "Data Scraping")
                      (files (env Demo.raising_started))))
              ("pipeline_results.json" :: Demo.home)
              (snd (FS.open_w SUMMARY (files (env Demo.raising_phase_done)))))
    as (st' & r & Hmain & Hres & Hget & Hlog & _);
    [vm_compute; reflexivity | vm_compute; reflexivity
    | vm_compute; reflexivity | reflexivity
    | vm_compute; reflexivity | vm_compute; reflexivity |].
  exists st', r. split; [exact Hmain|]. split; [exact Hres|].
  split; [exact Hget | exact Hlog].
Defined.

Lemma raw_warning_agrees_with_gate_witness :
  exists st1 st2,
    scraping Demo.toy_exec Demo.toy_clock Demo3.kepler_started = (Return tt, st1)
    /\ eda_gate st1 = (Return tt, st2)
    /\ results st2
       = Some {| timestamp := "2025-10-04T12:30:00";
                 phases := [("data_scraping", "failed");
                            ("eda", "skipped - requires manual review")] |}
    /\ PyDict.get "eda" (phases_of st2) = Some "skipped - requires manual review".
Proof.
  destruct (raw_warning_agrees_with_gate Demo.toy_exec Demo.toy_clock
              Demo3.kepler_started Demo.src_raising false Demo3.kepler_phase_done)
    as (st1 & st2 & Hscr & Hgate & _ & _ & _ & Hres);
    [vm_compute; reflexivity | vm_compute; reflexivity | vm_compute; reflexivity |].
  destruct (Hres {| timestamp := "2025-10-04T12:30:00"; phases := [] |})
    as [Hr Hget]; [vm_compute; reflexivity|].
  exists st1, st2. split; [exact Hscr|]. split; [exact Hgate|].
  split; [exact Hr | exact Hget].
Defined.

Lemma raw_dir_missing_witness :
  exists st1 st2,
    scraping Demo.toy_exec Demo.toy_clock Demo3.bare_recording = (Return tt, st1)
    /\ eda_gate st1 = (Return tt, st2)
    /\ results st2
       = Some {| timestamp := "2025-10-04T12:30:00";
                 phases := [("data_scraping", "failed");
                            ("eda", "skipped - no data")] |}
    /\ PyDict.get "eda" (phases_of st2) = Some "skipped - no data".
Proof.
  destruct (raw_dir_missing Demo.toy_exec Demo.toy_clock
              Demo3.bare_recording Demo.src_raising false
              Demo3.bare_recording_phase_done)
    as (st1 & st2 & Hscr & Hgate & _ & _ & _ & Hres);
    [vm_compute; reflexivity | vm_compute; reflexivity | vm_compute; reflexivity |].
  destruct (Hres {| timestamp := "2025-10-04T12:30:00"; phases := [] |})
    as [Hr Hget]; [vm_compute; reflexivity|].
  exists st1, st2. split; [exact Hscr|]. split; [exact Hgate|].
  split; [exact Hr | exact Hget].
Defined.

Lemma main_timestamp_at_start_witness :
  exists r,
    results Demo.raising_final = Some r
    /\ timestamp r = "2025-10-04T12:30:00".
Proof.
  destruct (main_timestamp_at_start Demo.toy_exec Demo.toy_clock
              (Demo.env_with Demo.src_raising) Demo.raising_final)
    as (r & Hres & Hts & _); [vm_compute; reflexivity|].
  exists r. split; [exact Hres|]. rewrite Hts. vm_compute. reflexivity.
Defined.

Section MainMore3.

Context {Globals : Type}.
Variable exec : string -> @Env Globals -> outcome * @Env Globals.
Variable clock : nat -> DateTime.datetime.

(** X17: when a regular file stands where one of the directories should
    be, [main] ends in [setup_environment]: after the four lines of its
    banner nothing is printed, the clock is not read, the Run Record is
    never made and no phase runs. *)
Theorem main_blocked_at_setup (e0 : @Env Globals) d c :
  d ∈ directories ->
  FS.stat (files e0) (FS.path_of d) = Return (FS.File c) ->
  exists e st',
    main exec clock (initial e0) = (Raise (OSError e), st')
    /\ stdout (env st')
       = stdout e0
         ++ [rule; "EXOPLANET DETECTION PIPELINE"; "NASA Space Apps Challenge 2025";
             rule +:+ PyStr.nl]
    /\ ticks (env st') = ticks e0
    /\ results st' = None
    /\ history st' = [].
Proof.
  intros Hin Hfile. unfold main, bind at 1.
  unfold startup, bind at 1 2 3 4 5, print. cbv beta iota.
  match goal with
  | |- context [setup_environment ?s0] => remember s0 as stb eqn:Hstb
  end.
  assert (files (env stb) = files e0
          /\ stdout (env stb)
             = stdout e0
               ++ [rule; "EXOPLANET DETECTION PIPELINE";
                   "NASA Space Apps Challenge 2025"; rule +:+ PyStr.nl]
          /\ ticks (env stb) = ticks e0
          /\ results stb = None /\ history stb = [])
    as (Hf & Hout & Ht & Hr & Hh).
  { subst stb. destruct e0 as [fs out tk g].
    cbn [initial env files stdout ticks results history set_env add_stdout].
    rewrite <- !app_assoc. repeat split. }
  unfold setup_environment, bind at 1.
  destruct (make_dirs_blocked directories stb d c Hin) as (e & st1 & Hloop & Hout1);
    [rewrite Hf; exact Hfile|].
  rewrite Hloop.
  apply (make_dirs_spec _ _ _ _ directories_relative) in Hloop
    as (s' & -> & _).
  exists e. eexists. split; [reflexivity|].
  destruct stb as [[fs out tk g] h r].
  cbn [env files stdout ticks results history set_env set_files] in *.
  repeat split; assumption.
Qed.

End MainMore3.

Lemma main_blocked_at_setup_witness :
  exists e st',
    main Demo.toy_exec Demo.toy_clock (initial (Demo.env_of Demo2.logs_is_file))
    = (Raise (OSError e), st')
    /\ results st' = None
    /\ history st' = [].
Proof.
  destruct (main_blocked_at_setup Demo.toy_exec Demo.toy_clock
              (Demo.env_of Demo2.logs_is_file) "logs" "notes")
    as (e & st' & Hmain & _ & _ & Hres & Hhist).
  - unfold directories. do 12 apply list_elem_of_further.
    apply list_elem_of_here.
  - vm_compute. reflexivity.
  - exists e, st'. split; [exact Hmain|]. split; [exact Hres | exact Hhist].
Defined.

Module NormalizeFacts.
Import PyStr.

Lemma normalize_char c :
  let f := fun c => if Ascii.eqb (lower_char c) " " then "_"%char else lower_char c in
  f (f c) = f c /\ Ascii.eqb (f c) " " = false.
Proof. destruct c as [[] [] [] [] [] [] [] []]; vm_compute; split; reflexivity. Qed.

(** X18: the name under which a log is filed holds no space, and
    normalising it again changes nothing: names that differ only in case
    or in spaces against underscores share one log. *)
Theorem normalize_shape (phase_name : string) :
  has_char " " (normalize phase_name) = false
  /\ normalize (normalize phase_name) = normalize phase_name.
Proof.
  unfold normalize. induction phase_name as [|c name [IH1 IH2]];
    [split; reflexivity|].
  cbn [lower replace_char has_char].
  destruct (normalize_char c) as [Hidem Hspace]. cbn zeta in Hidem, Hspace.
  split.
  - rewrite Hspace, IH1. reflexivity.
  - rewrite Hidem, IH2. reflexivity.
Qed.

End NormalizeFacts.
